(** * The Gmail assistant of [multi_tool_agent/quickstart.py]

    A shallow embedding of the class [GmailAgent]: the body extractor
    [_get_email_body], the five tool operations and the reply composer
    [_create_reply_message], followed by the properties of the
    specification that concern them.

    Conventions of the embedding.
    - A Python [str] is the list of its code points ([str]); [bytes] is a
      list of numbers below 256.
    - A JSON object of the Gmail API is a record whose optional keys are
      [option] fields; [d.get(k)] is the field, [k in d] is [Some _].
    - A Python exception is a value of [exn]; a computation that may raise
      returns [result].
    - The Gmail service and the Gemini model are oracles that see the calls
      made so far; an operation threads the list of calls and log records
      ([trace]) through the monad [M]. *)

From Stdlib Require Import List NArith ZArith Bool Lia String Ascii DecimalString.
Import ListNotations.

Set Implicit Arguments.

(* ================================================================= *)
(** ** Python strings *)

(** A code point, and a byte, is a number. *)
Abbreviation codepoint := N (only parsing).
Definition str := list codepoint.
Definition bytes := list N.

(** The Python literal written with the ASCII characters of [s]. *)
Definition py (s : string) : str := map N_of_ascii (list_ascii_of_string s).

Fixpoint str_eqb (a b : str) : bool :=
  match a, b with
  | [], [] => true
  | x :: a', y :: b' => N.eqb x y && str_eqb a' b'
  | _, _ => false
  end.

(** Truth value of a string: [if s:]. *)
Definition truthy (s : str) : bool :=
  match s with [] => false | _ :: _ => true end.

(** Truth value of [d.get(k)] for a string-valued key. *)
Definition truthy_opt (o : option str) : bool :=
  match o with Some s => truthy s | None => false end.

(** [str.lower].  Only the ASCII letters are mapped, and the other code
    points are kept: the program compares lower-cased text with ASCII
    literals only (["re:"], ["subject"], ["from"], ["date"],
    ["message-id"], ["references"]), and these comparisons come out the
    same as with the full Unicode mapping, which sends no code point
    outside ASCII to a single letter of these literals. *)
Definition lower_char (c : codepoint) : codepoint :=
  if (65 <=? c)%N && (c <=? 90)%N then (c + 32)%N else c.

Definition lower (s : str) : str := map lower_char s.

(** [s.startswith(prefix)] *)
Fixpoint startswith (s prefix : str) : bool :=
  match prefix with
  | [] => true
  | p :: prefix' =>
      match s with
      | [] => false
      | c :: s' => N.eqb c p && startswith s' prefix'
      end
  end.

(** [str.isspace] on one code point: the ASCII controls 9-13 and 28-31,
    the space, and the Unicode white space above 127. *)
Definition isspace (c : codepoint) : bool :=
  ((9 <=? c) && (c <=? 13) || (28 <=? c) && (c <=? 32)
   || (c =? 133) || (c =? 160) || (c =? 5760)
   || (8192 <=? c) && (c <=? 8202)
   || (c =? 8232) || (c =? 8233) || (c =? 8239) || (c =? 8287)
   || (c =? 12288))%N.

Fixpoint lstrip (s : str) : str :=
  match s with
  | [] => []
  | c :: s' => if isspace c then lstrip s' else s
  end.

Definition rstrip (s : str) : str := rev (lstrip (rev s)).

(** [s.strip()] *)
Definition strip (s : str) : str := rstrip (lstrip s).

(** [c in s] and [s.find(c)] for a one-character [c], the only use the
    program makes of them. *)
Definition contains (c : codepoint) (s : str) : bool := existsb (N.eqb c) s.

Fixpoint find_from (s : str) (c : codepoint) (i : Z) : Z :=
  match s with
  | [] => (-1)%Z
  | x :: s' => if N.eqb x c then i else find_from s' c (i + 1)%Z
  end.

Definition str_find (s : str) (c : codepoint) : Z := find_from s c 0%Z.

(** [s[start:stop]]: a negative index counts from the end, and both
    indices are clamped to the string. *)
Definition slice_index (len i : Z) : Z :=
  if (i <? 0)%Z then Z.max 0 (i + len) else Z.min i len.

Definition slice (s : str) (start stop : Z) : str :=
  let len := Z.of_nat (List.length s) in
  let a := slice_index len start in
  let b := slice_index len stop in
  firstn (Z.to_nat (b - a)) (skipn (Z.to_nat a) s).

(** [s[:stop]] *)
Definition slice_to (s : str) (stop : Z) : str := slice s 0%Z stop.

(** [str(n)] for a non-negative number *)
Definition str_of_N (n : N) : str := py (NilZero.string_of_uint (N.to_uint n)).

(* ================================================================= *)
(** ** Exceptions *)

(** The exceptions of class [Exception]: the handlers of the program
    tell [HttpError] from every other one; [str(e)] is the text carried.
    What is not an [Exception] ([KeyboardInterrupt], [SystemExit]) is
    caught by no handler of the program and is not modelled. *)
Inductive exn : Type :=
| HttpError (text : str)
| Exception (text : str).

Definition exn_text (e : exn) : str :=
  match e with HttpError t => t | Exception t => t end.

Inductive result (A : Type) : Type :=
| Ok (a : A)
| Raise (e : exn).
Arguments Ok {A} a.
Arguments Raise {A} e.

(* ================================================================= *)
(** ** The codecs of the standard library

    [base64.urlsafe_b64decode], [bytes.decode("utf-8", errors="replace")]
    and [base64.urlsafe_b64encode], as CPython computes them. *)

Definition b64_value (c : N) : option N :=
  if (65 <=? c)%N && (c <=? 90)%N then Some (c - 65)%N
  else if (97 <=? c)%N && (c <=? 122)%N then Some (c - 71)%N
  else if (48 <=? c)%N && (c <=? 57)%N then Some (c + 4)%N
  else if (c =? 43)%N then Some 62%N
  else if (c =? 47)%N then Some 63%N
  else None.

(** [binascii.a2b_base64] without strict mode: characters outside the
    alphabet are skipped, a pad that completes a quad ends the input, and
    an incomplete quad at the end is an error. *)
Fixpoint a2b_base64 (data : list N) (quad_pos : nat) (leftchar : N)
         (pads : nat) (out : bytes) : result bytes :=
  match data with
  | [] =>
      match quad_pos with
      | 0 => Ok out
      | 1 =>
          Raise (Exception
            (py "Invalid base64-encoded string: number of data characters ("
             ++ str_of_N (N.of_nat (List.length out) / 3 * 4 + 1)
             ++ py ") cannot be 1 more than a multiple of 4"))
      | _ => Raise (Exception (py "Incorrect padding"))
      end
  | this_ch :: rest =>
      if (this_ch =? 61)%N then
        if 2 <=? quad_pos then
          if 4 <=? quad_pos + S pads then Ok out
          else a2b_base64 rest quad_pos leftchar (S pads) out
        else a2b_base64 rest quad_pos leftchar pads out
      else
        match b64_value this_ch with
        | None => a2b_base64 rest quad_pos leftchar pads out
        | Some v =>
            match quad_pos with
            | 0 => a2b_base64 rest 1 v 0 out
            | 1 =>
                a2b_base64 rest 2 (N.land v 15) 0
                  (out ++ [N.lor (N.shiftl leftchar 2) (N.shiftr v 4)])
            | 2 =>
                a2b_base64 rest 3 (N.land v 3) 0
                  (out ++ [N.lor (N.shiftl leftchar 4) (N.shiftr v 2)])
            | _ =>
                a2b_base64 rest 0 0%N 0
                  (out ++ [N.lor (N.shiftl leftchar 6) v])
            end
        end
  end.

(** ['-'] and ['_'] stand for ['+'] and ['/']. *)
Definition urlsafe_translate (c : N) : N :=
  if (c =? 45)%N then 43%N else if (c =? 95)%N then 47%N else c.

Definition urlsafe_b64decode (s : str) : result bytes :=
  if forallb (fun c => (c <? 128)%N) s then
    a2b_base64 (map urlsafe_translate s) 0 0%N 0 []
  else
    Raise (Exception (py "string argument should contain only ASCII characters")).

Definition REPLACEMENT_CHARACTER : codepoint := 65533%N.

Definition is_continuation (b : N) : bool := ((128 <=? b) && (b <=? 191))%N.

(** The UTF-8 decoder with the [replace] error handler: an invalid start
    byte, a lead byte with the valid continuation bytes that follow it, or
    a sequence cut by the end of the data, each give one U+FFFD. *)
Fixpoint utf8_decode_replace (s : bytes) : str :=
  match s with
  | [] => []
  | ch :: t1 =>
      if (ch <? 128)%N then ch :: utf8_decode_replace t1
      else if (ch <? 224)%N then
        if (ch <? 194)%N then REPLACEMENT_CHARACTER :: utf8_decode_replace t1
        else
          match t1 with
          | [] => [REPLACEMENT_CHARACTER]
          | ch2 :: t2 =>
              if negb (is_continuation ch2)
              then REPLACEMENT_CHARACTER :: utf8_decode_replace t1
              else (N.shiftl ch 6 + ch2 - (N.shiftl 192 6 + 128))%N
                     :: utf8_decode_replace t2
          end
      else if (ch <? 240)%N then
        match t1 with
        | [] => [REPLACEMENT_CHARACTER]
        | ch2 :: t2 =>
            if negb (is_continuation ch2)
               || (if (ch2 <? 160)%N then (ch =? 224)%N else (ch =? 237)%N)
            then REPLACEMENT_CHARACTER :: utf8_decode_replace t1
            else
              match t2 with
              | [] => [REPLACEMENT_CHARACTER]
              | ch3 :: t3 =>
                  if negb (is_continuation ch3)
                  then REPLACEMENT_CHARACTER :: utf8_decode_replace t2
                  else (N.shiftl ch 12 + N.shiftl ch2 6 + ch3
                        - (N.shiftl 224 12 + N.shiftl 128 6 + 128))%N
                         :: utf8_decode_replace t3
              end
        end
      else if (ch <? 245)%N then
        match t1 with
        | [] => [REPLACEMENT_CHARACTER]
        | ch2 :: t2 =>
            if negb (is_continuation ch2)
               || (if (ch2 <? 144)%N then (ch =? 240)%N else (ch =? 244)%N)
            then REPLACEMENT_CHARACTER :: utf8_decode_replace t1
            else
              match t2 with
              | [] => [REPLACEMENT_CHARACTER]
              | ch3 :: t3 =>
                  if negb (is_continuation ch3)
                  then REPLACEMENT_CHARACTER :: utf8_decode_replace t2
                  else
                    match t3 with
                    | [] => [REPLACEMENT_CHARACTER]
                    | ch4 :: t4 =>
                        if negb (is_continuation ch4)
                        then REPLACEMENT_CHARACTER :: utf8_decode_replace t3
                        else (N.shiftl ch 18 + N.shiftl ch2 12
                              + N.shiftl ch3 6 + ch4
                              - (N.shiftl 240 18 + N.shiftl 128 12
                                 + N.shiftl 128 6 + 128))%N
                               :: utf8_decode_replace t4
                    end
              end
        end
      else REPLACEMENT_CHARACTER :: utf8_decode_replace t1
  end.

Definition b64_urlsafe_char (v : N) : N :=
  if (v <? 26)%N then (v + 65)%N
  else if (v <? 52)%N then (v + 71)%N
  else if (v <? 62)%N then (v - 4)%N
  else if (v =? 62)%N then 45%N
  else 95%N.

(** [base64.urlsafe_b64encode(b).decode("utf-8")]: the output is ASCII. *)
Fixpoint urlsafe_b64encode (b : bytes) : str :=
  match b with
  | [] => []
  | [x] =>
      [b64_urlsafe_char (N.shiftr x 2);
       b64_urlsafe_char (N.shiftl (N.land x 3) 4); 61%N; 61%N]
  | [x; y] =>
      [b64_urlsafe_char (N.shiftr x 2);
       b64_urlsafe_char (N.lor (N.shiftl (N.land x 3) 4) (N.shiftr y 4));
       b64_urlsafe_char (N.shiftl (N.land y 15) 2); 61%N]
  | x :: y :: z :: rest =>
      b64_urlsafe_char (N.shiftr x 2)
      :: b64_urlsafe_char (N.lor (N.shiftl (N.land x 3) 4) (N.shiftr y 4))
      :: b64_urlsafe_char (N.lor (N.shiftl (N.land y 15) 2) (N.shiftr z 6))
      :: b64_urlsafe_char (N.land z 63)
      :: urlsafe_b64encode rest
  end.

(** [base64.urlsafe_b64decode(data).decode("utf-8", errors='replace')],
    the expression of lines 109, 120 and 125. *)
Definition decode_data (data : str) : result str :=
  match urlsafe_b64decode data with
  | Ok b => Ok (utf8_decode_replace b)
  | Raise e => Raise e
  end.

(* ================================================================= *)
(** ** The objects of the Gmail API *)

(** One entry of [payload["headers"]]. *)
Record Header : Type := { name : str; value : str }.

(** [part["body"]]; the key ["data"] may be missing. *)
Record MessagePartBody : Type := { data : option str }.

#[local] Unset Elimination Schemes.

(** A message part: the payload of a message, or one of the parts of a
    multipart payload. *)
Inductive MessagePart : Type :=
  mkMessagePart {
      mimeType : option str;
      headers : option (list Header);
      body : option MessagePartBody;
      parts : option (list MessagePart) }.
#[local] Set Elimination Schemes.

(** The empty dictionary, the default of [message.get('payload', {})]. *)
Definition empty_part : MessagePart :=
  {| mimeType := None; headers := None; body := None; parts := None |}.

(** The answer of [messages().get]. *)
Record Message : Type := { threadId : option str; payload : option MessagePart }.

(** One entry of the answer of [messages().list]. *)
Record MessageStub : Type := { stub_id : str }.

Record ListResponse : Type := { messages : option (list MessageStub) }.

Record Profile : Type := { emailAddress : option str }.

(** The answer of [messages().send]. *)
Record SentMessage : Type := { sent_id : str }.

(** The body of [messages().send]: the dictionary that
    [_create_reply_message] returns. *)
Record ReplyMessageDict : Type := { raw : str; raw_threadId : str }.

Inductive get_format : Type :=
| Metadata   (* format='metadata', metadataHeaders=['Subject', 'From', 'Date'] *)
| Full.      (* format='full' *)

(* ================================================================= *)
(** ** Calls, log records and the monad of the operations *)

Inductive level : Type := INFO | WARNING | ERROR.

Inductive call : Type :=
| messages_list_call (labelIds : option (list str)) (q : option str) (maxResults : Z)
| messages_get_call (id : str) (format : get_format)
| getProfile_call
| messages_send_call (send_body : ReplyMessageDict)
| generate_content_call (prompt : str)
| logging_call (lvl : level) (msg : str).

Definition trace := list call.

(** The Gmail service: each request is answered, or raises, as a function
    of the request and of everything done before it. *)
Record Service : Type := {
  messages_list : trace -> option (list str) -> option str -> Z -> result ListResponse;
  messages_get : trace -> str -> get_format -> result Message;
  getProfile : trace -> result Profile;
  messages_send : trace -> ReplyMessageDict -> result SentMessage }.

(** The Gemini model: [generate_content(prompt).text]. *)
Record GenerativeModel : Type := {
  generate_content : trace -> str -> result str }.

(** The two attributes that [__init__] leaves in the object; each is
    [None] when its set-up failed. *)
Record GmailAgent : Type := {
  service : option Service;
  gemini_model : option GenerativeModel }.

Definition M (A : Type) : Type := trace -> result A * trace.

Definition ret {A} (a : A) : M A := fun t => (Ok a, t).

Definition bind {A B} (m : M A) (k : A -> M B) : M B :=
  fun t =>
    match m t with
    | (Ok a, t') => k a t'
    | (Raise e, t') => (Raise e, t')
    end.

(** [try: m  except ... as e: h e] *)
Definition try_except {A} (m : M A) (h : exn -> M A) : M A :=
  fun t =>
    match m t with
    | (Ok a, t') => (Ok a, t')
    | (Raise e, t') => h e t'
    end.

(** A pure computation that may raise. *)
Definition lift {A} (r : result A) : M A := fun t => (r, t).

Declare Scope gmail_scope.
Delimit Scope gmail_scope with gmail.
Notation "x <- m ;; k" := (bind m (fun x => k))
  (at level 61, m at next level, right associativity) : gmail_scope.
Notation "m ;; k" := (bind m (fun _ => k))
  (at level 61, right associativity) : gmail_scope.
Local Open Scope gmail_scope.

Definition logging (lvl : level) (msg : str) : M unit :=
  fun t => (Ok tt, t ++ [logging_call lvl msg]).

Definition do_messages_list (svc : Service) (labelIds : option (list str))
           (q : option str) (maxResults : Z) : M ListResponse :=
  fun t => (messages_list svc t labelIds q maxResults,
            t ++ [messages_list_call labelIds q maxResults]).

Definition do_messages_get (svc : Service) (id : str) (format : get_format)
  : M Message :=
  fun t => (messages_get svc t id format, t ++ [messages_get_call id format]).

Definition do_getProfile (svc : Service) : M Profile :=
  fun t => (getProfile svc t, t ++ [getProfile_call]).

Definition do_messages_send (svc : Service) (b : ReplyMessageDict) : M SentMessage :=
  fun t => (messages_send svc t b, t ++ [messages_send_call b]).

Definition do_generate_content (model : GenerativeModel) (prompt : str) : M str :=
  fun t => (generate_content model t prompt, t ++ [generate_content_call prompt]).

(** The envelope every tool returns: [{"status": "success", ...}] or
    [{"status": "error", "error_message": ...}]. *)
Inductive envelope (A : Type) : Type :=
| Success (fields : A)
| Error (error_message : str).
Arguments Success {A} fields.
Arguments Error {A} error_message.

Definition status {A} (e : envelope A) : str :=
  match e with Success _ => py "success" | Error _ => py "error" end.

(* ================================================================= *)
(** ** [_get_email_body] (lines 102-127) *)

(** [part.get("body", {}).get("data")] *)
Definition part_data (part : MessagePart) : option str :=
  match body part with Some b => data b | None => None end.

(** [part.get("mimeType") == t] *)
Definition mimeType_is (part : MessagePart) (t : str) : bool :=
  match mimeType part with Some m => str_eqb m t | None => false end.

(** The first loop (lines 105-109): [Some r] when it returns [r] (or
    raises), [None] when it runs to its end. *)
Fixpoint plain_loop (l : list MessagePart) : option (result str) :=
  match l with
  | [] => None
  | part :: rest =>
      if mimeType_is part (py "text/plain") then
        match part_data part with
        | Some d => if truthy d then Some (decode_data d) else plain_loop rest
        | None => plain_loop rest
        end
      else plain_loop rest
  end.

Section second_loop.
(** The recursive call of line 113. *)
Variable get_email_body : MessagePart -> result str.

(** The second loop (lines 111-120) followed by [return body]. *)
Fixpoint html_loop (l : list MessagePart) (body : str) : result str :=
  match l with
  | [] => Ok body
  | part :: rest =>
      match parts part with
      | Some _ =>
          match get_email_body part with
          | Raise e => Raise e
          | Ok nested_body =>
              if truthy nested_body then Ok nested_body
              else html_loop rest body
          end
      | None =>
          if mimeType_is part (py "text/html") then
            match part_data part with
            | Some d =>
                if truthy d then
                  if negb (truthy body) then
                    match decode_data d with
                    | Raise e => Raise e
                    | Ok body' => html_loop rest body'
                    end
                  else html_loop rest body
                else html_loop rest body
            | None => html_loop rest body
            end
          else html_loop rest body
      end
  end.
End second_loop.

(** The payload is a finite tree, and this function follows it to any
    depth; [_get_email_body_within] below is the same function under the
    recursion limit of the interpreter. *)
Fixpoint _get_email_body (payload : MessagePart) : result str :=
  match payload with
  | mkMessagePart _ _ _ (Some l) =>
      match plain_loop l with
      | Some r => r
      | None => html_loop _get_email_body l []
      end
  | mkMessagePart mt _ _ None =>
      if startswith (match mt with Some m => m | None => [] end) (py "text/")
      then
        match part_data payload with
        | Some d => if truthy d then decode_data d else Ok []
        | None => Ok []
        end
      else Ok []
  end.

(* ================================================================= *)
(** ** [_get_email_body] under the recursion limit *)


Section recursion_limit.
(** [decode_within room data] is the expression of lines 109, 120 and
    125 where the interpreter can still push [room] frames:
    [base64.urlsafe_b64decode] is written in Python and calls Python
    functions, so it raises [RecursionError] where the room is short. *)
Variable decode_within : nat -> str -> result str.



End recursion_limit.

(* ================================================================= *)
(** ** Pieces of the tools that the specification names *)

(** [next((h['value'] for h in headers if h['name'].lower() == key), default)] *)
Definition header_value (hs : list Header) (key default : str) : str :=
  match List.find (fun h => str_eqb (lower (name h)) key) hs with
  | Some h => value h
  | None => default
  end.

(** Lines 237-242 of [summarize_email_with_gemini]: the address inside
    the angle brackets of the From header. *)
Definition sender_email_of (sender_header : str) : str :=
  if contains 60%N sender_header && contains 62%N sender_header then
    let start := (str_find sender_header 60%N + 1)%Z in
    let end_ := str_find sender_header 62%N in
    if (start <? end_)%Z then slice sender_header start end_
    else sender_header
  else sender_header.

(** Line 250: the prompt of the summary. *)
Definition summary_prompt (subject email_body : str) : str :=
  py "Summarize the following email concisely:" ++ [10%N; 10%N]
  ++ py "Subject: " ++ subject ++ [10%N; 10%N]
  ++ py "Body:" ++ [10%N] ++ slice_to email_body 3000 ++ [10%N; 10%N]
  ++ py "Summary:".

(** Lines 301-310: the prompt of the reply draft. *)
Definition reply_prompt (original_subject original_body : str) : str :=
  py "Generate a professional and concise reply draft for the following email."
  ++ [10%N]
  ++ py "Focus on addressing the main points or questions. Omit salutations (like "
  ++ [34%N] ++ py "Hi Name," ++ [34%N] ++ py ") and closings (like "
  ++ [34%N] ++ py "Best," ++ [34%N] ++ py ")." ++ [10%N; 10%N]
  ++ py "Original Email Subject: " ++ original_subject ++ [10%N]
  ++ py "Original Email Body (first 2000 chars):" ++ [10%N]
  ++ py "---" ++ [10%N]
  ++ slice_to original_body 2000 ++ [10%N]
  ++ py "---" ++ [10%N; 10%N]
  ++ py "Generated Reply Draft (body only):".

(** Lines 395-397 of [send_reply]: the subject of the reply. *)
Definition reply_subject_of (subject : str) : str :=
  if negb (startswith (lower subject) (py "re:"))
  then py "Re: " ++ subject
  else subject.

(** Line 353 of [_create_reply_message]. *)
Definition new_references_of (references original_message_id : str) : str :=
  if truthy references
  then strip (references ++ py " " ++ original_message_id)
  else original_message_id.

(* ================================================================= *)
(** ** The MIME message of a reply *)

(** [MIMEText(text, subtype, charset)] *)
Record MIMEText : Type := {
  text_payload : str; text_subtype : str; text_charset : str }.

(** A [MIMEMultipart] object: its header fields in the order they were
    set, and the parts attached. *)
Record MIMEMultipart : Type := {
  mime_headers : list (str * str);
  mime_attached : list MIMEText }.

(** [MIMEMultipart(subtype)] *)
Definition new_MIMEMultipart (subtype : str) : MIMEMultipart :=
  {| mime_headers := [(py "Content-Type", py "multipart/" ++ subtype);
                      (py "MIME-Version", py "1.0")];
     mime_attached := [] |}.

(** [message[field] = v] *)
Definition set_header (field v : str) (message : MIMEMultipart) : MIMEMultipart :=
  {| mime_headers := mime_headers message ++ [(field, v)];
     mime_attached := mime_attached message |}.

(** [message[field]]: the first field of that name, whatever its case. *)
Definition get_header (field : str) (message : MIMEMultipart) : option str :=
  match List.find (fun h => str_eqb (lower (fst h)) (lower field))
                  (mime_headers message) with
  | Some h => Some (snd h)
  | None => None
  end.

(** [message.attach(part)] *)
Definition attach (part : MIMEText) (message : MIMEMultipart) : MIMEMultipart :=
  {| mime_headers := mime_headers message;
     mime_attached := mime_attached message ++ [part] |}.

(** Lines 346-358 of [_create_reply_message]: the [message] object. *)
Definition reply_message (sender to subject reply_body original_message_id
                          references : str) : MIMEMultipart :=
  let message := new_MIMEMultipart (py "related") in
  let message := set_header (py "to") to message in
  let message := set_header (py "from") sender message in
  let message := set_header (py "subject") subject message in
  let message :=
    if truthy original_message_id
    then set_header (py "In-Reply-To") original_message_id message
    else message in
  let new_references := new_references_of references original_message_id in
  let message :=
    if truthy new_references
    then set_header (py "References") new_references message
    else message in
  let msg_text := {| text_payload := reply_body; text_subtype := py "plain";
                     text_charset := py "utf-8" |} in
  attach msg_text message.

(* ================================================================= *)
(** ** The tools *)

(** One entry of ['emails']. *)
Record Email : Type := {
  email_id : str;
  email_threadId : option str;
  email_subject : str;
  email_from : str;
  email_date : str }.

(** The fields of a successful [summarize_email_with_gemini]. *)
Record Summary : Type := {
  summary : str;
  subject : str;
  original_body : str;
  sender_email : str;
  thread_id : option str;
  original_message_id : str;
  references : str }.

(** [message.get('payload', {})] *)
Definition payload_of (message : Message) : MessagePart :=
  match payload message with Some p => p | None => empty_part end.

(** [payload.get('headers', [])] of [msg.get('payload', {})] *)
Definition headers_of (msg : Message) : list Header :=
  match headers (payload_of msg) with Some hs => hs | None => [] end.

(** Lines 170-182: the entry appended for a fetched message. *)
Definition email_of (msg_id : str) (msg : Message) : Email :=
  let hs := headers_of msg in
  {| email_id := msg_id;
     email_threadId := threadId msg;
     email_subject := header_value hs (py "subject") (py "No Subject");
     email_from := header_value hs (py "from") (py "Unknown Sender");
     email_date := header_value hs (py "date") (py "No Date") |}.

(** The loop of lines 162-186, and of lines 452-476 where the two
    warnings read [for searched message]: [what] is that part of the
    text. *)
Fixpoint metadata_loop (svc : Service) (what : str) (stubs : list MessageStub)
         (email_list : list Email) : M (list Email) :=
  match stubs with
  | [] => ret email_list
  | msg_stub :: rest =>
      let msg_id := stub_id msg_stub in
      email_list' <-
        try_except
          (msg <- do_messages_get svc msg_id Metadata ;;
           ret (email_list ++ [email_of msg_id msg]))
          (fun e =>
             match e with
             | HttpError _ =>
                 logging WARNING
                   (py "Could not fetch metadata for " ++ what ++ msg_id
                    ++ py ": " ++ exn_text e) ;;
                 ret email_list
             | Exception _ =>
                 logging WARNING
                   (py "Unexpected error fetching metadata for " ++ what
                    ++ msg_id ++ py ": " ++ exn_text e) ;;
                 ret email_list
             end) ;;
      metadata_loop svc what rest email_list'
  end.

(** The two handlers that end every tool: the error is logged and
    becomes the envelope. *)
Definition api_handlers {A} (http unexpected_log unexpected : str) (e : exn)
  : M (envelope A) :=
  match e with
  | HttpError _ =>
      logging ERROR (http ++ exn_text e) ;;
      ret (Error (http ++ exn_text e))
  | Exception _ =>
      logging ERROR (unexpected_log ++ exn_text e) ;;
      ret (Error (unexpected ++ exn_text e))
  end.

Definition list_recent_emails (self : GmailAgent) (max_results : Z)
  : M (envelope (list Email)) :=
  match service self with
  | None => ret (Error (py "Gmail service not available."))
  | Some svc =>
      try_except
        (results <- do_messages_list svc (Some [py "INBOX"]) None max_results ;;
         match messages results with
         | None | Some [] =>
             logging INFO (py "No recent emails found in INBOX.") ;;
             ret (Success [])
         | Some stubs =>
             email_list <- metadata_loop svc (py "message ") stubs [] ;;
             ret (Success email_list)
         end)
        (api_handlers
           (py "An API error occurred listing emails: ")
           (py "An unexpected error occurred listing emails: ")
           (py "An unexpected error occurred listing emails: "))
  end.

Definition search_emails (self : GmailAgent) (query : str) (max_results : Z)
  : M (envelope (list Email)) :=
  match service self with
  | None => ret (Error (py "Gmail service not available."))
  | Some svc =>
      try_except
        (results <- do_messages_list svc None (Some query) max_results ;;
         match messages results with
         | None | Some [] =>
             logging INFO (py "No emails found matching query: '" ++ query
                           ++ py "'") ;;
             ret (Success [])
         | Some stubs =>
             email_list <- metadata_loop svc (py "searched message ") stubs [] ;;
             ret (Success email_list)
         end)
        (api_handlers
           (py "An API error occurred searching emails: ")
           (py "An unexpected error occurred searching emails: ")
           (py "An unexpected error occurred searching emails: "))
  end.

Definition summarize_email_with_gemini (self : GmailAgent) (email_id : str)
  : M (envelope Summary) :=
  match service self with
  | None => ret (Error (py "Gmail service not available."))
  | Some svc =>
  match gemini_model self with
  | None => ret (Error (py "Gemini model not initialized."))
  | Some model =>
      try_except
        (message <- do_messages_get svc email_id Full ;;
         let payload := payload_of message in
         let thread_id := threadId message in
         let hs := headers_of message in
         let subject := header_value hs (py "subject") (py "No Subject") in
         let sender_header := header_value hs (py "from") [] in
         let original_message_id := header_value hs (py "message-id") [] in
         let references := header_value hs (py "references") [] in
         let sender_email := sender_email_of sender_header in
         email_body <- lift (_get_email_body payload) ;;
         generated <-
           (if negb (truthy email_body) then
              logging WARNING (py "Could not extract body for email "
                               ++ email_id ++ py ".") ;;
              ret (inl (py "Could not extract email body to summarize."))
            else
              let prompt := summary_prompt subject email_body in
              try_except
                (text <- do_generate_content model prompt ;;
                 ret (inl text))
                (fun gen_e =>
                   logging ERROR
                     (py "Gemini content generation failed for email "
                      ++ email_id ++ py ": " ++ exn_text gen_e) ;;
                   ret (inr (Error (py "Gemini content generation failed: "
                                    ++ exn_text gen_e))))) ;;
         match generated with
         | inr returned => ret returned
         | inl summary_text =>
             ret (Success
                    {| summary := summary_text;
                       subject := subject;
                       original_body := email_body;
                       sender_email := sender_email;
                       thread_id := thread_id;
                       original_message_id := original_message_id;
                       references := references |})
         end)
        (api_handlers
           (py "An API error occurred fetching email " ++ email_id ++ py ": ")
           (py "An unexpected error occurred during summarization for email "
            ++ email_id ++ py ": ")
           (py "An unexpected error occurred during summarization: "))
  end
  end.

Definition generate_reply_with_gemini (self : GmailAgent)
           (original_subject original_body : str) : M (envelope str) :=
  match gemini_model self with
  | None => ret (Error (py "Gemini model not initialized."))
  | Some model =>
      (if negb (truthy original_body)
       then logging WARNING
              (py "Attempting to generate reply without original email body.")
       else ret tt) ;;
      try_except
        (text <- do_generate_content model
                   (reply_prompt original_subject original_body) ;;
         ret (Success (strip text)))
        (fun e =>
           logging ERROR (py "An error occurred during reply generation: "
                          ++ exn_text e) ;;
           ret (Error (py "An error occurred during reply generation: "
                       ++ exn_text e)))
  end.

Section send.
(** [message.as_bytes()] of the email package: the wire form of the
    message, or the exception of the serialiser. *)
Variable as_bytes : MIMEMultipart -> result bytes.

Definition _create_reply_message (sender to subject reply_body thread_id
                                  original_message_id references : str)
  : result ReplyMessageDict :=
  let message :=
    reply_message sender to subject reply_body original_message_id references in
  match as_bytes message with
  | Raise e => Raise e
  | Ok wire =>
      Ok {| raw := urlsafe_b64encode wire; raw_threadId := thread_id |}
  end.

Definition send_reply (self : GmailAgent) (to subject reply_body thread_id
                       original_message_id references : str)
  : M (envelope str) :=
  match service self with
  | None => ret (Error (py "Gmail service not available."))
  | Some svc =>
      try_except
        (profile <- do_getProfile svc ;;
         match emailAddress profile with
         | None | Some [] =>
             ret (Error (py "Could not determine sender email address from profile."))
         | Some actual_sender =>
             let reply_subject := reply_subject_of subject in
             reply_message_dict <-
               lift (_create_reply_message actual_sender to reply_subject
                       reply_body thread_id original_message_id references) ;;
             message <- do_messages_send svc reply_message_dict ;;
             logging INFO (py "Reply sent successfully. Message ID: "
                           ++ sent_id message) ;;
             ret (Success (sent_id message))
         end)
        (api_handlers
           (py "An API error occurred sending the reply: ")
           (py "An unexpected error occurred sending the reply: ")
           (py "An unexpected error occurred sending the reply: "))
  end.
End send.

(* ================================================================= *)
(** * Vocabulary of the properties

    The predicates and functions in which the properties below are
    stated, and the inputs on which the tools are run. *)

Unset Implicit Arguments.

(** The References value as the specification words it: the original
    references, a space and the original message id, trimmed; the message
    id alone when there were no references. *)
Definition spec_references (references original_message_id : str) : str :=
  match references with
  | [] => original_message_id
  | _ :: _ => strip (references ++ py " " ++ original_message_id)
  end.

(** [h] has its first ['<'] before its first ['>'], with [mid] strictly
    between the two. *)
Definition bracketed (h pre mid post : str) : Prop :=
  h = pre ++ [60%N] ++ mid ++ [62%N] ++ post
  /\ contains 60%N pre = false
  /\ contains 62%N pre = false
  /\ contains 62%N mid = false.

(** The header of the counterexample of C6: an empty pair of brackets. *)
Definition empty_brackets_header : str := py "Name <>".

(** Induction on a payload tree: a property of every part of a
    multipart payload may be assumed. *)
Fixpoint MessagePart_tree_ind (P : MessagePart -> Prop)
         (Hleaf : forall mt hs b, P (mkMessagePart mt hs b None))
         (Hnode : forall mt hs b l,
             Forall P l -> P (mkMessagePart mt hs b (Some l)))
         (p : MessagePart) {struct p} : P p :=
  match p with
  | mkMessagePart mt hs b None => Hleaf mt hs b
  | mkMessagePart mt hs b (Some l) =>
      Hnode mt hs b l
        ((fix parts_ind (l : list MessagePart) : Forall P l :=
            match l with
            | [] => Forall_nil P
            | q :: r =>
                Forall_cons q (MessagePart_tree_ind P Hleaf Hnode q) (parts_ind r)
            end) l)
  end.

(** A part that the first loop returns from: text/plain with data. *)
Definition carries_plain_text (part : MessagePart) : bool :=
  mimeType_is part (py "text/plain") && truthy_opt (part_data part).

(** A text/html part whose data is the base64 of [<b>hi</b>]. *)
Definition html_part_hi : MessagePart :=
  {| mimeType := Some (py "text/html"); headers := None;
     body := Some {| data := Some (py "PGI-aGk8L2I-") |}; parts := None |}.

(** The parts of the counterexample of C4: a text/plain part whose body
    has no data, and one whose data is the empty string. *)
Definition plain_part_without_data : MessagePart :=
  {| mimeType := Some (py "text/plain"); headers := None;
     body := Some {| data := None |}; parts := None |}.

Definition plain_part_empty_data : MessagePart :=
  {| mimeType := Some (py "text/plain"); headers := None;
     body := Some {| data := Some [] |}; parts := None |}.

(** The multipart payload made of the parts [l]. *)
Definition alternative_of (l : list MessagePart) : MessagePart :=
  {| mimeType := Some (py "multipart/alternative"); headers := None;
     body := None; parts := Some l |}.

(** A text/html part that is not itself multipart. *)
Definition is_html_leaf (part : MessagePart) : bool :=
  match parts part with
  | Some _ => false
  | None => mimeType_is part (py "text/html")
  end.

(** The decoded text of a part: what decoding its data gives, and the
    empty string when it has no data. *)
Definition part_text (part : MessagePart) : result str :=
  match part_data part with
  | Some d => if truthy d then decode_data d else Ok []
  | None => Ok []
  end.

(** The parts of the counterexample of C5: an HTML part whose data
    decodes to the empty string, and one without data. *)
Definition html_part_decoding_to_empty : MessagePart :=
  {| mimeType := Some (py "text/html"); headers := None;
     body := Some {| data := Some (py "=") |}; parts := None |}.

Definition html_part_without_data : MessagePart :=
  {| mimeType := Some (py "text/html"); headers := None;
     body := Some {| data := None |}; parts := None |}.



(** A part that neither loop looks into: not text/plain, not text/html,
    not multipart. *)
Definition matches_nothing (part : MessagePart) : bool :=
  negb (mimeType_is part (py "text/plain"))
  && negb (mimeType_is part (py "text/html"))
  && match parts part with Some _ => false | None => true end.

(** The payload of the counterexample of C9: a text/plain message whose
    data is three base64 characters with no padding. *)
Definition part_with_truncated_data : MessagePart :=
  {| mimeType := Some (py "text/plain"); headers := None;
     body := Some {| data := Some (py "abc") |}; parts := None |}.

(** The prompts sent to the generation backend, in order. *)
Definition generate_prompts (t : trace) : list str :=
  flat_map (fun c => match c with
                     | generate_content_call prompt => [prompt]
                     | _ => []
                     end) t.

(** The fields that [summarize_email_with_gemini] reads from the message,
    with the summary and the body to be filled in. *)
Definition summary_fields (message : Message) (summary_text email_body : str)
  : Summary :=
  let hs := headers_of message in
  {| summary := summary_text;
     subject := header_value hs (py "subject") (py "No Subject");
     original_body := email_body;
     sender_email := sender_email_of (header_value hs (py "from") []);
     thread_id := threadId message;
     original_message_id := header_value hs (py "message-id") [];
     references := header_value hs (py "references") [] |}.

(** The warning logged for a message that could not be fetched. *)
Definition skip_warning (what msg_id : str) (e : exn) : str :=
  match e with
  | HttpError _ =>
      py "Could not fetch metadata for " ++ what ++ msg_id ++ py ": "
      ++ exn_text e
  | Exception _ =>
      py "Unexpected error fetching metadata for " ++ what ++ msg_id
      ++ py ": " ++ exn_text e
  end.

(** [fetches svc what t stubs outcomes t']: [outcomes] are the answers of
    the service to the requests for the messages of [stubs], one after
    the other from the trace [t]; each failure leaves a warning in the
    log; [t'] is the trace at the end. *)
Inductive fetches (svc : Service) (what : str)
  : trace -> list MessageStub -> list (result Message) -> trace -> Prop :=
| fetches_nil (t : trace) : fetches svc what t [] [] t
| fetches_ok (t : trace) (stub : MessageStub) (rest : list MessageStub)
             (msg : Message) (outcomes : list (result Message)) (t' : trace) :
    messages_get svc t (stub_id stub) Metadata = Ok msg ->
    fetches svc what (t ++ [messages_get_call (stub_id stub) Metadata])
            rest outcomes t' ->
    fetches svc what t (stub :: rest) (Ok msg :: outcomes) t'
| fetches_skip (t : trace) (stub : MessageStub) (rest : list MessageStub)
               (e : exn) (outcomes : list (result Message)) (t' : trace) :
    messages_get svc t (stub_id stub) Metadata = Raise e ->
    fetches svc what
            ((t ++ [messages_get_call (stub_id stub) Metadata])
             ++ [logging_call WARNING (skip_warning what (stub_id stub) e)])
            rest outcomes t' ->
    fetches svc what t (stub :: rest) (Raise e :: outcomes) t'.

(** The entries of the messages that were fetched, in the order of the
    ids. *)
Definition kept (stubs : list MessageStub) (outcomes : list (result Message))
  : list Email :=
  flat_map (fun so : MessageStub * result Message =>
              match snd so with
              | Ok msg => [email_of (stub_id (fst so)) msg]
              | Raise _ => []
              end)
           (combine stubs outcomes).

(** The ids whose message was fetched, in the order of the ids. *)
Definition fetched_ids (stubs : list MessageStub)
           (outcomes : list (result Message)) : list str :=
  map (fun so : MessageStub * result Message => stub_id (fst so))
      (filter (fun so : MessageStub * result Message =>
                 match snd so with Ok _ => true | Raise _ => false end)
              (combine stubs outcomes)).

(** The number of fetches that failed. *)
Definition failures (outcomes : list (result Message)) : nat :=
  List.length (filter (fun r => match r with Raise _ => true | Ok _ => false end)
                      outcomes).

(** A mailbox to run the tools on. *)
Definition example_headers : list Header :=
  [ {| name := py "Subject"; value := py "Report" |};
    {| name := py "From"; value := py "Ada <ada@example.org>" |};
    {| name := py "Date"; value := py "Mon, 3 Mar 2025 10:00:00 +0000" |};
    {| name := py "Message-ID"; value := py "<m1>" |};
    {| name := py "References"; value := py "<a> <b>" |} ].

(** A text/plain message with the given data. *)
Definition example_message (d : option str) : Message :=
  {| threadId := Some (py "t1");
     payload := Some {| mimeType := Some (py "text/plain");
                        headers := Some example_headers;
                        body := Some {| data := d |};
                        parts := None |} |}.

(** The base64 of 3003 letters A. *)
Definition long_data : str := List.concat (repeat (py "QUFB") 1001).

(** The message [m4] cannot be fetched, [m-empty] has no body and
    [m-long] has a body of 3003 characters. *)
Definition example_get (id : str) : result Message :=
  if str_eqb id (py "m4") then Raise (HttpError (py "HttpError 500"))
  else if str_eqb id (py "m-empty") then Ok (example_message None)
  else if str_eqb id (py "m-long") then Ok (example_message (Some long_data))
  else Ok (example_message (Some (py "aGk="))).

(** The ids [m0] to [m9]. *)
Definition ten_stubs : list MessageStub :=
  map (fun n => {| stub_id := py "m" ++ str_of_N n |})
      [0; 1; 2; 3; 4; 5; 6; 7; 8; 9]%N.

Definition example_service : Service :=
  {| messages_list := fun _ _ _ _ => Ok {| messages := Some ten_stubs |};
     messages_get := fun _ id _ => example_get id;
     getProfile := fun _ => Ok {| emailAddress := Some (py "me@example.org") |};
     messages_send := fun _ _ => Ok {| sent_id := py "s1" |} |}.

Definition example_model : GenerativeModel :=
  {| generate_content := fun _ _ => Ok (py "A summary.") |}.

Definition example_agent : GmailAgent :=
  {| service := Some example_service; gemini_model := Some example_model |}.

(** The messages handed to [messages().send], in order. *)
Definition sends (t : trace) : list ReplyMessageDict :=
  flat_map (fun c => match c with
                     | messages_send_call b => [b]
                     | _ => []
                     end) t.

(** The requests for single messages, in order. *)
Definition fetch_calls (t : trace) : list (str * get_format) :=
  flat_map (fun c => match c with
                     | messages_get_call id format => [(id, format)]
                     | _ => []
                     end) t.

(** The records written to the log, in order. *)
Definition log_records (t : trace) : list (level * str) :=
  flat_map (fun c => match c with
                     | logging_call lvl msg => [(lvl, msg)]
                     | _ => []
                     end) t.

(** The warnings of the fetches that failed, in order. *)
Definition skip_warnings (what : str) (stubs : list MessageStub)
           (outcomes : list (result Message)) : list (level * str) :=
  flat_map (fun so : MessageStub * result Message =>
              match snd so with
              | Ok _ => []
              | Raise e => [(WARNING, skip_warning what (stub_id (fst so)) e)]
              end)
           (combine stubs outcomes).

(** A mailbox whose listing answers without the key ['messages'], whose
    profile has no address and whose other calls fail. *)
Definition empty_service : Service :=
  {| messages_list := fun _ _ _ _ => Ok {| messages := None |};
     messages_get := fun _ _ _ => Raise (HttpError (py "HttpError 404"));
     getProfile := fun _ => Ok {| emailAddress := None |};
     messages_send := fun _ _ => Raise (HttpError (py "HttpError 403")) |}.

Definition empty_agent : GmailAgent :=
  {| service := Some empty_service; gemini_model := Some example_model |}.

(** A mailbox whose listing and profile fail and whose every message
    has data that is not valid base64, and a model that always fails. *)
Definition truncated_service : Service :=
  {| messages_list := fun _ _ _ _ => Raise (HttpError (py "HttpError 500"));
     messages_get := fun _ _ _ => Ok (example_message (Some (py "abc")));
     getProfile := fun _ => Raise (Exception (py "timed out"));
     messages_send := fun _ _ => Raise (HttpError (py "HttpError 403")) |}.

Definition failing_model : GenerativeModel :=
  {| generate_content := fun _ _ => Raise (Exception (py "quota exceeded")) |}.

Definition truncated_agent : GmailAgent :=
  {| service := Some truncated_service; gemini_model := Some failing_model |}.

Definition failing_model_agent : GmailAgent :=
  {| service := Some example_service; gemini_model := Some failing_model |}.

(** A model whose answer has white space around it. *)
Definition padded_model : GenerativeModel :=
  {| generate_content := fun _ _ => Ok ([10%N; 32%N] ++ py "Thank you." ++ [32%N; 10%N]) |}.

Definition padded_model_agent : GmailAgent :=
  {| service := Some example_service; gemini_model := Some padded_model |}.

(** [s] neither starts nor ends with white space. *)
Definition trimmed (s : str) : bool :=
  match s with
  | [] => true
  | c :: _ => negb (isspace c) && negb (isspace (last s c))
  end.

(** Every character of [s] is white space. *)
Definition blank (s : str) : bool := forallb isspace s.

(** Every element of [b] is a byte. *)
Definition is_bytes (b : bytes) : bool := forallb (fun x => (x <? 256)%N) b.

(** Every character of [s] is ASCII. *)
Definition is_ascii (s : str) : bool := forallb (fun c => (c <? 128)%N) s.

(** [f] holds of every byte. *)
Definition all256 (f : N -> bool) : bool :=
  forallb f (map N.of_nat (seq 0 256)).

(** What the decoder finds when it reads back the four characters that
    encode the bytes [x], [y] and [z]: the sextets, and the bytes they
    give. *)
Definition quad_check_xy (x y : N) : bool :=
  let c0 := N.shiftr x 2 in
  let c1 := N.lor (N.shiftl (N.land x 3) 4) (N.shiftr y 4) in
  ((c0 <? 64) && (c1 <? 64)
   && (N.lor (N.shiftl c0 2) (N.shiftr c1 4) =? x)
   && (N.land c1 15 =? N.shiftr y 4)
   && (N.shiftl (N.land x 3) 4 <? 64)
   && (N.lor (N.shiftl c0 2) (N.shiftr (N.shiftl (N.land x 3) 4) 4) =? x))%N.

Definition quad_check_yz (y z : N) : bool :=
  let c2 := N.lor (N.shiftl (N.land y 15) 2) (N.shiftr z 6) in
  let c3 := N.land z 63 in
  ((c2 <? 64) && (c3 <? 64)
   && (N.lor (N.shiftl (N.shiftr y 4) 4) (N.shiftr c2 2) =? y)
   && (N.lor (N.shiftl (N.land c2 3) 6) c3 =? z)
   && (N.shiftl (N.land y 15) 2 <? 64)
   && (N.lor (N.shiftl (N.shiftr y 4) 4)
             (N.shiftr (N.shiftl (N.land y 15) 2) 2) =? y))%N.

(** The character of a sextet is read back as the sextet, and is not the
    pad. *)
Definition sextet_check (v : N) : bool :=
  ((64 <=? v)
   || negb (urlsafe_translate (b64_urlsafe_char v) =? 61)
      && match b64_value (urlsafe_translate (b64_urlsafe_char v)) with
         | Some w => w =? v
         | None => false
         end)%N.

(** A serialiser for the examples: the header fields, one on a line,
    then the text of the parts. *)
Definition example_as_bytes (message : MIMEMultipart) : result bytes :=
  Ok (List.concat (map (fun h : str * str => fst h ++ py ": " ++ snd h ++ [13%N; 10%N])
                       (mime_headers message))
      ++ [13%N; 10%N]
      ++ List.concat (map text_payload (mime_attached message))).

(** A text/plain part whose data is the base64 of [hi]. *)
Definition plain_part_hi : MessagePart :=
  {| mimeType := Some (py "text/plain"); headers := None;
     body := Some {| data := Some (py "aGk=") |}; parts := None |}.





(* ================================================================= *)
(** * Properties *)

(** ** Strings *)

Lemma str_eqb_eq (a b : str) : str_eqb a b = true <-> a = b.
Proof.
  revert b; induction a as [|x a IH]; destruct b as [|y b]; simpl;
    try (split; [discriminate | congruence]); try tauto.
  rewrite andb_true_iff, N.eqb_eq, IH. split.
  - intros [-> ->]; reflexivity.
  - intros [= -> ->]; auto.
Qed.

Lemma str_eqb_refl (a : str) : str_eqb a a = true.
Proof. apply str_eqb_eq; reflexivity. Qed.

Lemma truthy_false (s : str) : truthy s = false <-> s = [].
Proof. destruct s; simpl; split; congruence. Qed.

Lemma truthy_true (s : str) : truthy s = true <-> s <> [].
Proof. destruct s; simpl; split; congruence. Qed.

Lemma slice_to_firstn (s : str) (n : nat) :
  slice_to s (Z.of_nat n) = firstn n s.
Proof.
  unfold slice_to, slice, slice_index.
  change (0 <? 0)%Z with false. cbv iota.
  destruct (Z.of_nat n <? 0)%Z eqn:E; [apply Z.ltb_lt in E; lia|].
  rewrite (Z.min_l 0) by lia. simpl skipn.
  destruct (Nat.le_gt_cases n (List.length s)).
  - rewrite Z.min_l by lia. rewrite Z.sub_0_r, Nat2Z.id. reflexivity.
  - rewrite Z.min_r by lia. rewrite Z.sub_0_r, Nat2Z.id.
    rewrite !firstn_all2 by lia. reflexivity.
Qed.

(** ** Subject of the reply *)

Lemma startswith_re_prefixed (s : str) :
  startswith (lower (py "Re: " ++ s)) (py "re:") = true.
Proof. reflexivity. Qed.

(** C3.  The subject of the reply starts with "re:" once lower-cased;
    "Re: " is put in front exactly when the subject does not start that
    way already, and the subject is kept as it is otherwise;
    normalizing twice is normalizing once; "Re: X" and "X" both give
    "Re: X", and the test does not look at the case of "Re:". *)
Theorem reply_subject_normalized (subject : str) :
  startswith (lower (reply_subject_of subject)) (py "re:") = true
  /\ reply_subject_of subject
     = (if startswith (lower subject) (py "re:") then subject
        else py "Re: " ++ subject)
  /\ reply_subject_of (reply_subject_of subject) = reply_subject_of subject
  /\ reply_subject_of (py "Re: " ++ subject) = py "Re: " ++ subject
  /\ reply_subject_of (py "Re: X") = py "Re: X"
  /\ reply_subject_of (py "X") = py "Re: X"
  /\ reply_subject_of (py "RE: X") = py "RE: X"
  /\ reply_subject_of (py "re: X") = py "re: X".
Proof.
  assert (H1 : startswith (lower (reply_subject_of subject)) (py "re:") = true).
  { unfold reply_subject_of.
    destruct (startswith (lower subject) (py "re:")) eqn:E; simpl negb; cbv iota.
    - exact E.
    - apply startswith_re_prefixed. }
  repeat split.
  - exact H1.
  - unfold reply_subject_of.
    destruct (startswith (lower subject) (py "re:")); reflexivity.
  - unfold reply_subject_of at 1. rewrite H1. reflexivity.
Qed.

(** ** Threading headers of the reply *)

Lemma new_references_of_spec (references original_message_id : str) :
  new_references_of references original_message_id
  = spec_references references original_message_id.
Proof. destruct references; reflexivity. Qed.

(** C2.  In the message that [_create_reply_message] composes, References
    is the original references, a space and the original message id,
    trimmed (the message id alone when the references are empty), and is
    left out when that string is empty; In-Reply-To is the original
    message id and is left out exactly when it is empty. *)
Theorem reply_threading_headers
        (sender to subject reply_body original_message_id references : str) :
  let message :=
    reply_message sender to subject reply_body original_message_id references in
  get_header (py "References") message
  = match spec_references references original_message_id with
    | [] => None
    | c :: r => Some (c :: r)
    end
  /\ get_header (py "In-Reply-To") message
     = match original_message_id with
       | [] => None
       | c :: r => Some (c :: r)
       end
  /\ get_header (py "References")
       (reply_message sender to subject reply_body (py "<m1>") [])
     = Some (py "<m1>")
  /\ get_header (py "References")
       (reply_message sender to subject reply_body (py "<m1>") (py "<a> <b>"))
     = Some (py "<a> <b> <m1>").
Proof.
  intro message. subst message. unfold reply_message.
  rewrite new_references_of_spec.
  set (refs := spec_references references original_message_id).
  split; [|split; [|split; reflexivity]].
  - destruct original_message_id as [|c r]; destruct refs as [|c' r'];
      cbn [truthy]; unfold attach, set_header, new_MIMEMultipart;
      cbn [mime_headers mime_attached app];
      reflexivity.
  - destruct original_message_id as [|c r]; destruct refs as [|c' r'];
      cbn [truthy]; unfold attach, set_header, new_MIMEMultipart;
      cbn [mime_headers mime_attached app];
      reflexivity.
Qed.

(** ** Address of the sender *)

Lemma contains_app (c : codepoint) (a b : str) :
  contains c (a ++ b) = contains c a || contains c b.
Proof. apply existsb_app. Qed.

Lemma contains_split (c : codepoint) (s : str) :
  contains c s = true ->
  exists pre rest, s = pre ++ c :: rest /\ contains c pre = false.
Proof.
  induction s as [|x s IH]; simpl; [discriminate|].
  destruct (N.eqb c x) eqn:E; simpl.
  - intros _. apply N.eqb_eq in E. subst x. exists [], s. auto.
  - intros H. destruct (IH H) as (pre & rest & -> & Hpre).
    exists (x :: pre), rest. simpl. rewrite E, Hpre. auto.
Qed.

Lemma find_from_first (c : codepoint) (pre rest : str) (i : Z) :
  contains c pre = false ->
  find_from (pre ++ c :: rest) c i = (i + Z.of_nat (List.length pre))%Z.
Proof.
  revert i; induction pre as [|x pre IH]; intros i; simpl.
  - intros _. rewrite N.eqb_refl. lia.
  - intros H. apply orb_false_iff in H as [Hx Hpre].
    rewrite N.eqb_sym, Hx. rewrite IH by assumption. lia.
Qed.

Lemma str_find_first (c : codepoint) (pre rest : str) :
  contains c pre = false ->
  str_find (pre ++ c :: rest) c = Z.of_nat (List.length pre).
Proof. intros H. unfold str_find. rewrite find_from_first by assumption. lia. Qed.

Lemma slice_middle (pre mid post : str) :
  slice (pre ++ mid ++ post) (Z.of_nat (List.length pre))
        (Z.of_nat (List.length pre + List.length mid)) = mid.
Proof.
  unfold slice, slice_index.
  destruct (Z.of_nat (List.length pre) <? 0)%Z eqn:E1;
    [apply Z.ltb_lt in E1; lia|].
  destruct (Z.of_nat (List.length pre + List.length mid) <? 0)%Z eqn:E2;
    [apply Z.ltb_lt in E2; lia|].
  rewrite !length_app.
  rewrite !Z.min_l by lia.
  replace (Z.to_nat (Z.of_nat (List.length pre + List.length mid)
                     - Z.of_nat (List.length pre)))
    with (List.length mid + 0) by lia.
  rewrite Nat2Z.id.
  rewrite skipn_app, skipn_all, Nat.sub_diag. simpl.
  rewrite firstn_app_2. simpl. apply app_nil_r.
Qed.

Lemma bracketed_indices (h pre mid post : str) :
  bracketed h pre mid post ->
  contains 60%N h = true /\ contains 62%N h = true
  /\ str_find h 60%N = Z.of_nat (List.length pre)
  /\ str_find h 62%N = Z.of_nat (List.length pre + 1 + List.length mid).
Proof.
  intros (-> & H60 & H62 & Hmid). repeat split.
  - rewrite contains_app. simpl. apply orb_true_r.
  - rewrite !contains_app. simpl. rewrite !orb_true_r. reflexivity.
  - apply str_find_first; assumption.
  - change (pre ++ [60%N] ++ mid ++ [62%N] ++ post)
      with (pre ++ [60%N] ++ mid ++ 62%N :: post).
    rewrite 2 app_assoc.
    rewrite str_find_first.
    + rewrite !length_app. simpl. f_equal.
    + rewrite !contains_app, H62, Hmid. reflexivity.
Qed.

Lemma sender_email_of_bracketed (h pre mid post : str) :
  bracketed h pre mid post -> mid <> [] -> sender_email_of h = mid.
Proof.
  intros Hb Hmid.
  destruct (bracketed_indices _ _ _ _ Hb) as (C60 & C62 & F60 & F62).
  unfold sender_email_of. rewrite C60, C62, F60, F62. cbn [andb].
  destruct mid as [|m mid]; [congruence|].
  destruct (_ <? _)%Z eqn:E; [|apply Z.ltb_ge in E; simpl in E; lia].
  destruct Hb as (-> & _).
  replace (Z.of_nat (List.length pre) + 1)%Z
    with (Z.of_nat (List.length (pre ++ [60%N])))
    by (rewrite length_app; simpl; lia).
  replace (List.length pre + 1 + List.length (m :: mid))
    with (List.length (pre ++ [60%N]) + List.length (m :: mid))
    by (rewrite length_app; simpl; lia).
  rewrite (app_assoc pre [60%N]).
  apply slice_middle.
Qed.

Lemma sender_email_of_changed (h : str) :
  sender_email_of h <> h ->
  exists pre mid post, bracketed h pre mid post /\ mid <> [].
Proof.
  unfold sender_email_of.
  destruct (contains 60%N h) eqn:C60; [|intros []; reflexivity].
  destruct (contains 62%N h) eqn:C62; [|intros []; reflexivity].
  cbn [andb].
  destruct (contains_split _ _ C60) as (p1 & r1 & E1 & N1).
  destruct (contains_split _ _ C62) as (p2 & r2 & E2 & N2).
  rewrite E1 at 1. rewrite (str_find_first _ _ _ N1).
  rewrite E2 at 1. rewrite (str_find_first _ _ _ N2).
  destruct (_ <? _)%Z eqn:E; [|intros []; reflexivity].
  intros _. apply Z.ltb_lt in E.
  assert (Heq : p1 ++ 60%N :: r1 = p2 ++ 62%N :: r2)
    by (transitivity h; [symmetry; exact E1 | exact E2]).
  apply app_eq_app in Heq as (l & [(Hp & Hr) | (Hp & Hr)]).
  - apply (f_equal (@List.length _)) in Hp. rewrite length_app in Hp. lia.
  - destruct l as [|x mid].
    + rewrite app_nil_r in Hp. subst p2. lia.
    + injection Hr as <- Hr1.
      subst p2. rewrite contains_app in N2. simpl in N2.
      apply orb_false_iff in N2 as (N2a & N2b).
      exists p1, mid, r2. split.
      * unfold bracketed. repeat split; try assumption.
        rewrite E1, Hr1. reflexivity.
      * intros ->. rewrite length_app in E. simpl in E. lia.
Qed.

(** C6 as stated fails on the code: in ["Name <>"] both brackets are
    there, ['<'] comes first and the text strictly between them is empty,
    but the header is returned unchanged. *)
Lemma sender_email_of_empty_brackets :
  bracketed empty_brackets_header (py "Name ") [] []
  /\ sender_email_of empty_brackets_header = py "Name <>"
  /\ sender_email_of empty_brackets_header <> [].
Proof.
  split; [|split].
  - repeat split.
  - reflexivity.
  - discriminate.
Qed.

(** C6, amended.  When the first ['<'] comes before the first ['>'] and
    there is at least one character between them, the address is the text
    strictly between the two; in every other case (a bracket missing,
    ['>'] first, nothing between the brackets) the header is returned
    unchanged. *)
Theorem sender_email_between_brackets (h : str) :
  (forall pre mid post,
      bracketed h pre mid post -> mid <> [] -> sender_email_of h = mid)
  /\ ((forall pre mid post, bracketed h pre mid post -> mid = []) ->
      sender_email_of h = h).
Proof.
  split.
  - intros pre mid post. apply sender_email_of_bracketed.
  - intros Hnone.
    destruct (list_eq_dec N.eq_dec (sender_email_of h) h) as [E|NE]; [exact E|].
    destruct (sender_email_of_changed _ NE) as (pre & mid & post & Hb & Hmid).
    elim Hmid. exact (Hnone _ _ _ Hb).
Qed.

Lemma sender_email_between_brackets_witness :
  sender_email_of (py "Ada <ada@example.org>") = py "ada@example.org"
  /\ sender_email_of (py "ada@example.org") = py "ada@example.org".
Proof.
  split.
  - apply (proj1 (sender_email_between_brackets (py "Ada <ada@example.org>"))
             (py "Ada ") (py "ada@example.org") []).
    + repeat split.
    + discriminate.
  - apply (proj2 (sender_email_between_brackets (py "ada@example.org"))).
    intros pre mid post Hb.
    destruct (bracketed_indices _ _ _ _ Hb) as (C & _). discriminate C.
Defined.

(** ** Body of a message *)

Lemma get_email_body_parts (p : MessagePart) (l : list MessagePart) :
  parts p = Some l ->
  _get_email_body p
  = match plain_loop l with
    | Some r => r
    | None => html_loop _get_email_body l []
    end.
Proof. destruct p as [mt hs b ps]; simpl; intros ->; reflexivity. Qed.

Lemma get_email_body_leaf (p : MessagePart) :
  parts p = None ->
  _get_email_body p
  = if startswith (match mimeType p with Some m => m | None => [] end)
                  (py "text/")
    then match part_data p with
         | Some d => if truthy d then decode_data d else Ok []
         | None => Ok []
         end
    else Ok [].
Proof. destruct p as [mt hs b ps]; simpl; intros ->; reflexivity. Qed.

Lemma plain_loop_skips (pre rest : list MessagePart) :
  existsb carries_plain_text pre = false ->
  plain_loop (pre ++ rest) = plain_loop rest.
Proof.
  induction pre as [|q pre IH]; simpl; [reflexivity|].
  intros H. apply orb_false_iff in H as [Hq Hpre].
  unfold carries_plain_text in Hq.
  destruct (mimeType_is q (py "text/plain")); [|auto].
  simpl in Hq. destruct (part_data q) as [d|]; [|auto].
  simpl in Hq. rewrite Hq. auto.
Qed.

Lemma plain_loop_none (l : list MessagePart) :
  existsb carries_plain_text l = false -> plain_loop l = None.
Proof.
  intros H. rewrite <- (app_nil_r l). rewrite plain_loop_skips by assumption.
  reflexivity.
Qed.

Lemma first_carrying_plain_text (l : list MessagePart) :
  existsb carries_plain_text l = true ->
  exists pre part rest,
    l = pre ++ part :: rest
    /\ existsb carries_plain_text pre = false
    /\ carries_plain_text part = true.
Proof.
  induction l as [|q l IH]; simpl; [discriminate|].
  destruct (carries_plain_text q) eqn:Hq; simpl.
  - intros _. exists [], q, l. auto.
  - intros H. destruct (IH H) as (pre & part & rest & -> & Hpre & Hpart).
    exists (q :: pre), part, rest. simpl. rewrite Hq. auto.
Qed.

(** C4 as stated fails on the code: a payload whose first part is
    text/plain, without data or with empty data, gives the text of the
    HTML part that follows. *)
Lemma get_email_body_plain_without_data :
  mimeType_is plain_part_without_data (py "text/plain") = true
  /\ mimeType_is plain_part_empty_data (py "text/plain") = true
  /\ decode_data [] = Ok []
  /\ mimeType_is html_part_hi (py "text/html") = true
  /\ part_data html_part_hi = Some (py "PGI-aGk8L2I-")
  /\ decode_data (py "PGI-aGk8L2I-") = Ok (py "<b>hi</b>")
  /\ _get_email_body (alternative_of [plain_part_without_data; html_part_hi])
     = Ok (py "<b>hi</b>")
  /\ _get_email_body (alternative_of [plain_part_empty_data; html_part_hi])
     = Ok (py "<b>hi</b>").
Proof. repeat split. Qed.

(** C4, amended.  When one of the parts of the payload is text/plain and
    carries data, the body is what decoding the data of the first such
    part gives (its text, or the error of the decoder); no other part
    is looked at. *)
Theorem get_email_body_first_plain_text (p : MessagePart) (l : list MessagePart) :
  parts p = Some l ->
  existsb carries_plain_text l = true ->
  exists pre part d rest,
    l = pre ++ part :: rest
    /\ existsb carries_plain_text pre = false
    /\ mimeType_is part (py "text/plain") = true
    /\ part_data part = Some d
    /\ d <> []
    /\ _get_email_body p = decode_data d.
Proof.
  intros Hp Hex.
  destruct (first_carrying_plain_text l Hex) as (pre & part & rest & -> & Hpre & Hpart).
  unfold carries_plain_text in Hpart.
  apply andb_true_iff in Hpart as [Hmt Hd].
  destruct (part_data part) as [d|] eqn:Ed; [|discriminate].
  simpl in Hd.
  exists pre, part, d, rest. repeat split; try assumption.
  - apply truthy_true. assumption.
  - rewrite (get_email_body_parts p _ Hp).
    rewrite plain_loop_skips by assumption.
    simpl. rewrite Hmt, Ed, Hd. reflexivity.
Qed.

Lemma get_email_body_first_plain_text_witness :
  exists pre part d rest,
    [html_part_hi; plain_part_without_data;
     {| mimeType := Some (py "text/plain"); headers := None;
        body := Some {| data := Some (py "aGk=") |}; parts := None |};
     html_part_hi]
    = pre ++ part :: rest
    /\ existsb carries_plain_text pre = false
    /\ mimeType_is part (py "text/plain") = true
    /\ part_data part = Some d
    /\ d <> []
    /\ _get_email_body
         (alternative_of
            [html_part_hi; plain_part_without_data;
             {| mimeType := Some (py "text/plain"); headers := None;
                body := Some {| data := Some (py "aGk=") |}; parts := None |};
             html_part_hi])
       = decode_data d.
Proof.
  apply get_email_body_first_plain_text; reflexivity.
Defined.

Lemma html_is_not_plain (part : MessagePart) :
  mimeType_is part (py "text/html") = true ->
  mimeType_is part (py "text/plain") = false.
Proof.
  unfold mimeType_is. destruct (mimeType part) as [m|]; [|discriminate].
  intros H. apply str_eqb_eq in H. subst m. reflexivity.
Qed.

Lemma html_leaves_carry_no_plain_text (l : list MessagePart) :
  forallb is_html_leaf l = true -> existsb carries_plain_text l = false.
Proof.
  induction l as [|q l IH]; simpl; [reflexivity|].
  intros H. apply andb_true_iff in H as [Hq Hl].
  rewrite (IH Hl), orb_false_r. unfold carries_plain_text.
  unfold is_html_leaf in Hq. destruct (parts q); [discriminate|].
  rewrite (html_is_not_plain q Hq). reflexivity.
Qed.

Section html_leaves.
Variable f : MessagePart -> result str.

Lemma html_loop_leaf (q : MessagePart) (rest : list MessagePart) (body : str) :
  is_html_leaf q = true ->
  html_loop f (q :: rest) body
  = match body with
    | [] => match part_text q with
            | Ok body' => html_loop f rest body'
            | Raise e => Raise e
            end
    | _ :: _ => html_loop f rest body
    end.
Proof.
  unfold is_html_leaf, part_text. simpl.
  destruct (parts q); [discriminate|]. intros ->.
  destruct (part_data q) as [d|]; [|destruct body; reflexivity].
  destruct (truthy d); [|destruct body; reflexivity].
  destruct body; reflexivity.
Qed.

(** Once a fallback is captured, the HTML parts that follow are
    ignored. *)
Lemma html_loop_captured (l : list MessagePart) (body : str) :
  forallb is_html_leaf l = true -> body <> [] ->
  html_loop f l body = Ok body.
Proof.
  induction l as [|q l IH]; simpl forallb; [reflexivity|].
  intros H Hb. apply andb_true_iff in H as [Hq Hl].
  rewrite html_loop_leaf by assumption.
  destruct body; [congruence|]. apply IH; assumption.
Qed.

Lemma html_loop_skips_empty (pre rest : list MessagePart) :
  forallb is_html_leaf pre = true ->
  Forall (fun q => part_text q = Ok []) pre ->
  html_loop f (pre ++ rest) [] = html_loop f rest [].
Proof.
  induction pre as [|q pre IH]; simpl forallb; [reflexivity|].
  intros H Hempty. apply andb_true_iff in H as [Hq Hl].
  inversion Hempty as [|? ? Hq0 Hpre]; subst.
  simpl app. rewrite html_loop_leaf by assumption. rewrite Hq0.
  apply IH; assumption.
Qed.
End html_leaves.

(** C5 as stated fails on the code: when the first HTML part decodes to
    the empty string, or has no data, the text of the second HTML part is
    returned. *)
Lemma get_email_body_second_html_part :
  forallb is_html_leaf [html_part_decoding_to_empty; html_part_hi] = true
  /\ part_data html_part_decoding_to_empty = Some (py "=")
  /\ decode_data (py "=") = Ok []
  /\ part_text html_part_hi = Ok (py "<b>hi</b>")
  /\ _get_email_body (alternative_of [html_part_decoding_to_empty; html_part_hi])
     = Ok (py "<b>hi</b>")
  /\ forallb is_html_leaf [html_part_without_data; html_part_hi] = true
  /\ _get_email_body (alternative_of [html_part_without_data; html_part_hi])
     = Ok (py "<b>hi</b>").
Proof. repeat split. Qed.

(** C5, amended.  When every part of the payload is a text/html leaf, the
    body is the decoded text of the first part whose decoded text is not
    empty (or the error of decoding it); the parts after that one never
    show in the result.  When every part decodes to the empty string or
    has no data, the body is empty. *)
Theorem get_email_body_first_html_text (p : MessagePart) (l : list MessagePart) :
  parts p = Some l ->
  forallb is_html_leaf l = true ->
  (forall pre part rest,
      l = pre ++ part :: rest ->
      Forall (fun q => part_text q = Ok []) pre ->
      part_text part <> Ok [] ->
      _get_email_body p = part_text part)
  /\ (Forall (fun q => part_text q = Ok []) l -> _get_email_body p = Ok []).
Proof.
  intros Hp Hl.
  rewrite (get_email_body_parts p l Hp).
  rewrite (plain_loop_none l (html_leaves_carry_no_plain_text l Hl)).
  split.
  - intros pre part rest -> Hpre Hpart.
    rewrite forallb_app in Hl. apply andb_true_iff in Hl as [Hl1 Hl2].
    simpl in Hl2. apply andb_true_iff in Hl2 as [Hq Hrest].
    rewrite html_loop_skips_empty by assumption.
    rewrite html_loop_leaf by assumption.
    destruct (part_text part) as [s|e]; [|reflexivity].
    apply html_loop_captured; [assumption|].
    intros ->. apply Hpart. reflexivity.
  - intros Hall. rewrite <- (app_nil_r l).
    rewrite html_loop_skips_empty by assumption. reflexivity.
Qed.

Lemma get_email_body_first_html_text_witness :
  _get_email_body
    (alternative_of [html_part_without_data; html_part_decoding_to_empty;
                     html_part_hi; html_part_hi])
  = part_text html_part_hi
  /\ _get_email_body
       (alternative_of [html_part_without_data; html_part_decoding_to_empty])
     = Ok [].
Proof.
  split.
  - apply (proj1 (get_email_body_first_html_text
                    (alternative_of [html_part_without_data;
                                     html_part_decoding_to_empty;
                                     html_part_hi; html_part_hi])
                    _ eq_refl eq_refl)
             [html_part_without_data; html_part_decoding_to_empty]
             html_part_hi [html_part_hi] eq_refl).
    + repeat constructor.
    + discriminate.
  - apply (proj2 (get_email_body_first_html_text
                    (alternative_of [html_part_without_data;
                                     html_part_decoding_to_empty])
                    _ eq_refl eq_refl)).
    repeat constructor.
Defined.





Lemma html_loop_matches_nothing (f : MessagePart -> result str)
      (l : list MessagePart) (body : str) :
  forallb matches_nothing l = true -> html_loop f l body = Ok body.
Proof.
  induction l as [|q l IH]; simpl; [reflexivity|].
  intros H. apply andb_true_iff in H as [Hq Hl].
  unfold matches_nothing in Hq.
  apply andb_true_iff in Hq as [Hq Hparts].
  apply andb_true_iff in Hq as [_ Hhtml].
  destruct (parts q); [discriminate|].
  apply negb_true_iff in Hhtml. rewrite Hhtml. auto.
Qed.

Lemma plain_loop_matches_nothing (l : list MessagePart) :
  forallb matches_nothing l = true -> plain_loop l = None.
Proof.
  induction l as [|q l IH]; simpl; [reflexivity|].
  intros H. apply andb_true_iff in H as [Hq Hl].
  unfold matches_nothing in Hq.
  apply andb_true_iff in Hq as [Hq _].
  apply andb_true_iff in Hq as [Hplain _].
  apply negb_true_iff in Hplain. rewrite Hplain. auto.
Qed.

(** Data that is not valid base64 makes [_get_email_body] raise the
    error of the decoder, as a leaf and as a part of a multipart
    payload. *)
Lemma get_email_body_raises_on_truncated_data :
  _get_email_body part_with_truncated_data
  = Raise (Exception (py "Incorrect padding"))
  /\ _get_email_body (alternative_of [html_part_hi; part_with_truncated_data])
     = Raise (Exception (py "Incorrect padding"))
  /\ ~ exists s, _get_email_body part_with_truncated_data = Ok s.
Proof.
  split; [reflexivity|]. split; [reflexivity|].
  intros (s & H). discriminate H.
Qed.

(** ** Summary of a message *)

Lemma generate_prompts_app (t u : trace) :
  generate_prompts (t ++ u) = generate_prompts t ++ generate_prompts u.
Proof. apply flat_map_app. Qed.

(** One run of [summarize_email_with_gemini] with both back ends set up,
    case by case. *)
Lemma summarize_run (self : GmailAgent) (svc : Service)
      (model : GenerativeModel) (email_id : str) (t : trace) :
  service self = Some svc -> gemini_model self = Some model ->
  let t1 := t ++ [messages_get_call email_id Full] in
  let handlers :=
    api_handlers (A := Summary)
      (py "An API error occurred fetching email " ++ email_id ++ py ": ")
      (py "An unexpected error occurred during summarization for email "
       ++ email_id ++ py ": ")
      (py "An unexpected error occurred during summarization: ") in
  summarize_email_with_gemini self email_id t
  = match messages_get svc t email_id Full with
    | Raise e => handlers e t1
    | Ok message =>
        match _get_email_body (payload_of message) with
        | Raise e => handlers e t1
        | Ok [] =>
            (Ok (Success
                   (summary_fields message
                      (py "Could not extract email body to summarize.") [])),
             t1 ++ [logging_call WARNING
                      (py "Could not extract body for email " ++ email_id
                       ++ py ".")])
        | Ok (c :: r) =>
            let prompt :=
              summary_prompt
                (header_value (headers_of message) (py "subject")
                              (py "No Subject")) (c :: r) in
            match generate_content model t1 prompt with
            | Ok text =>
                (Ok (Success (summary_fields message text (c :: r))),
                 t1 ++ [generate_content_call prompt])
            | Raise gen_e =>
                (Ok (Error (py "Gemini content generation failed: "
                            ++ exn_text gen_e)),
                 (t1 ++ [generate_content_call prompt])
                 ++ [logging_call ERROR
                       (py "Gemini content generation failed for email "
                        ++ email_id ++ py ": " ++ exn_text gen_e)])
            end
        end
    end.
Proof.
  intros Hs Hm t1 handlers. unfold summarize_email_with_gemini.
  rewrite Hs, Hm. unfold try_except at 1. unfold bind at 1.
  unfold do_messages_get at 1. fold t1.
  destruct (messages_get svc t email_id Full) as [message|e]; [|reflexivity].
  unfold bind at 1. unfold lift at 1. fold (payload_of message).
  destruct (_get_email_body (payload_of message)) as [[|c r]|e];
    [reflexivity| |reflexivity].
  cbn [truthy negb]. unfold bind at 1. unfold try_except at 1.
  unfold bind at 1. unfold do_generate_content at 1.
  destruct (generate_content model t1 _) as [text|gen_e]; reflexivity.
Qed.

Lemma summary_prompt_firstn (subject email_body : str) :
  summary_prompt subject email_body
  = py "Summarize the following email concisely:" ++ [10%N; 10%N]
    ++ py "Subject: " ++ subject ++ [10%N; 10%N]
    ++ py "Body:" ++ [10%N] ++ firstn 3000 email_body ++ [10%N; 10%N]
    ++ py "Summary:".
Proof.
  unfold summary_prompt.
  change 3000%Z with (Z.of_nat 3000). rewrite slice_to_firstn. reflexivity.
Qed.

(** C7.  With both back ends set up and the message fetched: when the
    extracted body is empty the result is a success whose summary is the
    fixed placeholder and no prompt is sent to the generation backend;
    when the body is not empty exactly one prompt is sent, made of the
    subject and of the first 3000 characters of the body. *)
Theorem summarize_placeholder_or_truncated_prompt
        (self : GmailAgent) (svc : Service) (model : GenerativeModel)
        (email_id : str) (t : trace) (message : Message) (email_body : str) :
  service self = Some svc ->
  gemini_model self = Some model ->
  messages_get svc t email_id Full = Ok message ->
  _get_email_body (payload_of message) = Ok email_body ->
  exists r t',
    summarize_email_with_gemini self email_id t = (Ok r, t')
    /\ match email_body with
       | [] =>
           status r = py "success"
           /\ r = Success (summary_fields message
                             (py "Could not extract email body to summarize.") [])
           /\ generate_prompts t' = generate_prompts t
       | _ :: _ =>
           generate_prompts t'
           = generate_prompts t
             ++ [py "Summarize the following email concisely:" ++ [10%N; 10%N]
                 ++ py "Subject: "
                 ++ header_value (headers_of message) (py "subject")
                                 (py "No Subject")
                 ++ [10%N; 10%N]
                 ++ py "Body:" ++ [10%N] ++ firstn 3000 email_body
                 ++ [10%N; 10%N] ++ py "Summary:"]
       end.
Proof.
  intros Hs Hm Hget Hbody.
  rewrite (summarize_run self svc model email_id t Hs Hm).
  rewrite Hget, Hbody.
  destruct email_body as [|c b].
  - eexists _, _. split; [reflexivity|].
    split; [reflexivity|]. split; [reflexivity|].
    rewrite !generate_prompts_app. simpl. rewrite !app_nil_r. reflexivity.
  - cbv zeta. rewrite summary_prompt_firstn.
    destruct (generate_content model _ _) as [text|gen_e];
      eexists _, _; (split; [reflexivity|]);
      rewrite !generate_prompts_app; simpl; rewrite !app_nil_r; reflexivity.
Qed.

(** C10.  Whenever [summarize_email_with_gemini] succeeds, the field
    ['original_body'] is the whole extracted body of the fetched message,
    whatever its length; what was sent to the generation backend, if
    anything, is the one prompt that holds its first 3000 characters. *)
Theorem summarize_returns_whole_body
        (self : GmailAgent) (email_id : str) (t t' : trace) (fields : Summary) :
  summarize_email_with_gemini self email_id t = (Ok (Success fields), t') ->
  exists svc message,
    service self = Some svc
    /\ messages_get svc t email_id Full = Ok message
    /\ _get_email_body (payload_of message) = Ok (original_body fields)
    /\ (generate_prompts t' = generate_prompts t
        \/ generate_prompts t'
           = generate_prompts t
             ++ [py "Summarize the following email concisely:" ++ [10%N; 10%N]
                 ++ py "Subject: " ++ subject fields ++ [10%N; 10%N]
                 ++ py "Body:" ++ [10%N]
                 ++ firstn 3000 (original_body fields)
                 ++ [10%N; 10%N] ++ py "Summary:"]).
Proof.
  destruct (service self) as [svc|] eqn:Hs;
    [|unfold summarize_email_with_gemini; rewrite Hs; discriminate].
  destruct (gemini_model self) as [model|] eqn:Hm;
    [|unfold summarize_email_with_gemini; rewrite Hs, Hm; discriminate].
  rewrite (summarize_run self svc model email_id t Hs Hm).
  destruct (messages_get svc t email_id Full) as [message|e] eqn:Hget;
    [|destruct e; discriminate].
  destruct (_get_email_body (payload_of message)) as [[|c b]|e] eqn:Hbody;
    [| |destruct e; discriminate].
  - intros [= <- <-]. exists svc, message. repeat split; try assumption.
    left. rewrite !generate_prompts_app. simpl. rewrite !app_nil_r. reflexivity.
  - cbv zeta. destruct (generate_content model _ _) as [text|gen_e];
      [|discriminate].
    intros [= <- <-]. exists svc, message. repeat split; try assumption.
    right. rewrite <- summary_prompt_firstn.
    rewrite !generate_prompts_app. simpl. rewrite !app_nil_r. reflexivity.
Qed.

(** ** Listing and searching *)

Lemma fetches_length svc what t stubs outcomes t' :
  fetches svc what t stubs outcomes t' ->
  List.length outcomes = List.length stubs.
Proof. induction 1; simpl; congruence. Qed.

Lemma kept_length (stubs : list MessageStub) (outcomes : list (result Message)) :
  List.length outcomes = List.length stubs ->
  List.length (kept stubs outcomes) + failures outcomes = List.length stubs.
Proof.
  revert outcomes; induction stubs as [|s stubs IH]; intros [|r outcomes];
    simpl; try discriminate; [reflexivity|].
  intros [= H]. specialize (IH outcomes H).
  unfold kept, failures in *. simpl. destruct r; simpl; lia.
Qed.

Lemma kept_ids (stubs : list MessageStub) (outcomes : list (result Message)) :
  map email_id (kept stubs outcomes) = fetched_ids stubs outcomes.
Proof.
  unfold kept, fetched_ids.
  induction (combine stubs outcomes) as [|[stub [msg|e]] l IH]; simpl;
    [reflexivity| |assumption].
  f_equal. assumption.
Qed.

Lemma metadata_loop_run (svc : Service) (what : str) (stubs : list MessageStub) :
  forall (email_list : list Email) (t : trace),
  exists outcomes t',
    fetches svc what t stubs outcomes t'
    /\ metadata_loop svc what stubs email_list t
       = (Ok (email_list ++ kept stubs outcomes), t').
Proof.
  induction stubs as [|stub rest IH]; intros email_list t.
  - exists [], t. split; [constructor|]. simpl. unfold ret.
    rewrite app_nil_r. reflexivity.
  - cbn [metadata_loop]. unfold bind at 1. unfold try_except at 1.
    unfold bind at 1. unfold do_messages_get at 1.
    destruct (messages_get svc t (stub_id stub) Metadata) as [msg|e] eqn:Hget.
    + unfold ret at 1.
      destruct (IH (email_list ++ [email_of (stub_id stub) msg])
                   (t ++ [messages_get_call (stub_id stub) Metadata]))
        as (outcomes & t' & Hf & Hrun).
      exists (Ok msg :: outcomes), t'. split.
      * apply fetches_ok; assumption.
      * rewrite Hrun. unfold kept. simpl. rewrite <- app_assoc. reflexivity.
    + destruct (IH email_list
                   ((t ++ [messages_get_call (stub_id stub) Metadata])
                    ++ [logging_call WARNING
                          (skip_warning what (stub_id stub) e)]))
        as (outcomes & t' & Hf & Hrun).
      exists (Raise e :: outcomes), t'. split.
      * apply fetches_skip; assumption.
      * destruct e; exact Hrun.
Qed.

(** C8.  When the listing, or the query, answers with the ids [stubs],
    the tool returns a success whatever the fetches of the single
    messages do: its emails are the entries of the messages that were
    fetched, their ids are the ids that were fetched in the order of
    [stubs], each failed fetch is skipped with a warning in the log, and
    the number of emails is the number of ids less the number of failed
    fetches. *)
Theorem list_and_search_skip_failed_fetches (self : GmailAgent) (svc : Service) :
  service self = Some svc ->
  (forall max_results t stubs,
      messages_list svc t (Some [py "INBOX"]) None max_results
      = Ok {| messages := Some stubs |} ->
      exists outcomes t',
        fetches svc (py "message ")
                (t ++ [messages_list_call (Some [py "INBOX"]) None max_results])
                stubs outcomes t'
        /\ fst (list_recent_emails self max_results t)
           = Ok (Success (kept stubs outcomes))
        /\ (stubs <> [] -> snd (list_recent_emails self max_results t) = t')
        /\ map email_id (kept stubs outcomes) = fetched_ids stubs outcomes
        /\ List.length (kept stubs outcomes) + failures outcomes
           = List.length stubs)
  /\ (forall query max_results t stubs,
         messages_list svc t None (Some query) max_results
         = Ok {| messages := Some stubs |} ->
         exists outcomes t',
           fetches svc (py "searched message ")
                   (t ++ [messages_list_call None (Some query) max_results])
                   stubs outcomes t'
           /\ fst (search_emails self query max_results t)
              = Ok (Success (kept stubs outcomes))
           /\ (stubs <> [] -> snd (search_emails self query max_results t) = t')
           /\ map email_id (kept stubs outcomes) = fetched_ids stubs outcomes
           /\ List.length (kept stubs outcomes) + failures outcomes
              = List.length stubs).
Proof.
  intros Hs. split.
  - intros max_results t stubs Hlist.
    destruct (metadata_loop_run svc (py "message ") stubs []
                (t ++ [messages_list_call (Some [py "INBOX"]) None max_results]))
      as (outcomes & t' & Hf & Hrun).
    exists outcomes, t'. split; [assumption|].
    assert (E : stubs <> [] ->
                list_recent_emails self max_results t
                = (Ok (Success (kept stubs outcomes)), t')).
    { intros Hne. unfold list_recent_emails. rewrite Hs.
      unfold try_except at 1. unfold bind at 1. unfold do_messages_list at 1.
      rewrite Hlist. cbn [messages].
      destruct stubs as [|stub rest]; [congruence|].
      unfold bind at 1. rewrite Hrun. reflexivity. }
    split; [|split; [|split]].
    + destruct stubs as [|stub rest].
      * inversion Hf; subst. unfold list_recent_emails. rewrite Hs.
        unfold try_except at 1. unfold bind at 1. unfold do_messages_list at 1.
        rewrite Hlist. reflexivity.
      * rewrite E by discriminate. reflexivity.
    + intros Hne. rewrite (E Hne). reflexivity.
    + apply kept_ids.
    + apply kept_length. apply (fetches_length _ _ _ _ _ _ Hf).
  - intros query max_results t stubs Hlist.
    destruct (metadata_loop_run svc (py "searched message ") stubs []
                (t ++ [messages_list_call None (Some query) max_results]))
      as (outcomes & t' & Hf & Hrun).
    exists outcomes, t'. split; [assumption|].
    assert (E : stubs <> [] ->
                search_emails self query max_results t
                = (Ok (Success (kept stubs outcomes)), t')).
    { intros Hne. unfold search_emails. rewrite Hs.
      unfold try_except at 1. unfold bind at 1. unfold do_messages_list at 1.
      rewrite Hlist. cbn [messages].
      destruct stubs as [|stub rest]; [congruence|].
      unfold bind at 1. rewrite Hrun. reflexivity. }
    split; [|split; [|split]].
    + destruct stubs as [|stub rest].
      * inversion Hf; subst. unfold search_emails. rewrite Hs.
        unfold try_except at 1. unfold bind at 1. unfold do_messages_list at 1.
        rewrite Hlist. reflexivity.
      * rewrite E by discriminate. reflexivity.
    + intros Hne. rewrite (E Hne). reflexivity.
    + apply kept_ids.
    + apply kept_length. apply (fetches_length _ _ _ _ _ _ Hf).
Qed.

(** ** The tools on the example mailbox *)

Lemma summarize_placeholder_or_truncated_prompt_witness :
  (exists r t',
      summarize_email_with_gemini example_agent (py "m-empty") [] = (Ok r, t')
      /\ status r = py "success"
      /\ r = Success (summary_fields (example_message None)
                        (py "Could not extract email body to summarize.") [])
      /\ generate_prompts t' = generate_prompts [])
  /\ (exists r t',
         summarize_email_with_gemini example_agent (py "m7") [] = (Ok r, t')
         /\ generate_prompts t'
            = generate_prompts []
              ++ [py "Summarize the following email concisely:" ++ [10%N; 10%N]
                  ++ py "Subject: " ++ py "Report" ++ [10%N; 10%N]
                  ++ py "Body:" ++ [10%N] ++ firstn 3000 (py "hi")
                  ++ [10%N; 10%N] ++ py "Summary:"]).
Proof.
  split.
  - exact (summarize_placeholder_or_truncated_prompt
             example_agent example_service example_model (py "m-empty") []
             (example_message None) [] eq_refl eq_refl eq_refl eq_refl).
  - exact (summarize_placeholder_or_truncated_prompt
             example_agent example_service example_model (py "m7") []
             (example_message (Some (py "aGk="))) (py "hi")
             eq_refl eq_refl eq_refl eq_refl).
Defined.

Lemma summarize_returns_whole_body_witness :
  exists svc message,
    service example_agent = Some svc
    /\ messages_get svc [] (py "m7") Full = Ok message
    /\ _get_email_body (payload_of message) = Ok (py "hi")
    /\ (generate_prompts
          [messages_get_call (py "m7") Full;
           generate_content_call (summary_prompt (py "Report") (py "hi"))]
        = generate_prompts []
        \/ generate_prompts
             [messages_get_call (py "m7") Full;
              generate_content_call (summary_prompt (py "Report") (py "hi"))]
           = generate_prompts []
             ++ [py "Summarize the following email concisely:" ++ [10%N; 10%N]
                 ++ py "Subject: " ++ py "Report" ++ [10%N; 10%N]
                 ++ py "Body:" ++ [10%N] ++ firstn 3000 (py "hi")
                 ++ [10%N; 10%N] ++ py "Summary:"]).
Proof.
  exact (summarize_returns_whole_body example_agent (py "m7") []
           [messages_get_call (py "m7") Full;
            generate_content_call (summary_prompt (py "Report") (py "hi"))]
           (summary_fields (example_message (Some (py "aGk=")))
                           (py "A summary.") (py "hi"))
           eq_refl).
Defined.

(** A body of 3003 characters comes back whole, and its first 3000
    characters are what the prompt holds. *)
Lemma summarize_long_body :
  summarize_email_with_gemini example_agent (py "m-long") []
  = (Ok (Success (summary_fields (example_message (Some long_data))
                    (py "A summary.") (repeat 65%N 3003))),
     [messages_get_call (py "m-long") Full;
      generate_content_call
        (py "Summarize the following email concisely:" ++ [10%N; 10%N]
         ++ py "Subject: " ++ py "Report" ++ [10%N; 10%N]
         ++ py "Body:" ++ [10%N] ++ repeat 65%N 3000
         ++ [10%N; 10%N] ++ py "Summary:")]).
Proof. vm_compute. reflexivity. Qed.

Lemma list_and_search_skip_failed_fetches_witness :
  exists outcomes t',
    fetches example_service (py "message ")
            ([] ++ [messages_list_call (Some [py "INBOX"]) None 10])
            ten_stubs outcomes t'
    /\ fst (list_recent_emails example_agent 10 [])
       = Ok (Success (kept ten_stubs outcomes))
    /\ (ten_stubs <> [] -> snd (list_recent_emails example_agent 10 []) = t')
    /\ map email_id (kept ten_stubs outcomes) = fetched_ids ten_stubs outcomes
    /\ List.length (kept ten_stubs outcomes) + failures outcomes
       = List.length ten_stubs.
Proof.
  exact (proj1 (list_and_search_skip_failed_fetches
                  example_agent example_service eq_refl)
               10%Z [] ten_stubs eq_refl).
Defined.

(** Ten ids, the fifth of which cannot be fetched: nine emails, in the
    order of the ids, and one warning in the log. *)
Lemma list_ten_one_corrupted :
  exists emails t',
    list_recent_emails example_agent 10 [] = (Ok (Success emails), t')
    /\ map email_id emails
       = map py ["m0"; "m1"; "m2"; "m3"; "m5"; "m6"; "m7"; "m8"; "m9"]%string
    /\ List.length emails = 9
    /\ filter (fun c => match c with logging_call _ _ => true | _ => false end) t'
       = [logging_call WARNING
            (py "Could not fetch metadata for message m4: HttpError 500")].
Proof.
  eexists _, _. split; [vm_compute; reflexivity|].
  split; [|split]; vm_compute; reflexivity.
Qed.

(** ** Sending *)

Lemma sends_app (t u : trace) : sends (t ++ u) = sends t ++ sends u.
Proof. apply flat_map_app. Qed.

Lemma api_handlers_sends {A} (http unexpected_log unexpected : str) (e : exn)
      (t : trace) :
  sends (snd (api_handlers (A := A) http unexpected_log unexpected e t))
  = sends t.
Proof.
  destruct e; cbn [api_handlers bind logging ret snd]; rewrite sends_app; simpl; apply app_nil_r.
Qed.

(** One run of [send_reply], case by case. *)
Lemma send_reply_run
      (as_bytes : MIMEMultipart -> result bytes) (self : GmailAgent)
      (to subject reply_body thread_id original_message_id references : str)
      (t : trace) :
  let handlers :=
    api_handlers (A := str)
      (py "An API error occurred sending the reply: ")
      (py "An unexpected error occurred sending the reply: ")
      (py "An unexpected error occurred sending the reply: ") in
  let t1 := t ++ [getProfile_call] in
  let no_sender :=
    (Ok (Error (py "Could not determine sender email address from profile.")),
     t1) in
  send_reply as_bytes self to subject reply_body thread_id
             original_message_id references t
  = match service self with
    | None => (Ok (Error (py "Gmail service not available.")), t)
    | Some svc =>
        match getProfile svc t with
        | Raise e => handlers e t1
        | Ok profile =>
            match emailAddress profile with
            | None | Some [] => no_sender
            | Some actual_sender =>
                match _create_reply_message as_bytes actual_sender to
                        (reply_subject_of subject) reply_body thread_id
                        original_message_id references with
                | Raise e => handlers e t1
                | Ok b =>
                    match messages_send svc t1 b with
                    | Raise e => handlers e (t1 ++ [messages_send_call b])
                    | Ok message =>
                        (Ok (Success (sent_id message)),
                         (t1 ++ [messages_send_call b])
                         ++ [logging_call INFO
                               (py "Reply sent successfully. Message ID: "
                                ++ sent_id message)])
                    end
                end
            end
        end
    end.
Proof.
  intros handlers t1 no_sender. unfold send_reply.
  destruct (service self) as [svc|]; [|reflexivity].
  unfold try_except at 1. unfold bind at 1. unfold do_getProfile at 1.
  fold t1. destruct (getProfile svc t) as [profile|e]; [|reflexivity].
  destruct (emailAddress profile) as [[|c actual_sender]|];
    [reflexivity| |reflexivity].
  unfold bind at 1. unfold lift at 1.
  destruct (_create_reply_message _ _ _ _ _ _ _ _) as [b|e]; [|reflexivity].
  unfold bind at 1. unfold do_messages_send at 1.
  destruct (messages_send svc t1 b) as [message|e]; reflexivity.
Qed.

(** One call of [send_reply] hands at most one message to the service,
    and none when the profile or the serialiser fails: a send is never
    tried again. *)
Lemma send_reply_sends_at_most_once
      (as_bytes : MIMEMultipart -> result bytes) (self : GmailAgent)
      (to subject reply_body thread_id original_message_id references : str)
      (t : trace) :
  sends (snd (send_reply as_bytes self to subject reply_body thread_id
                         original_message_id references t)) = sends t
  \/ exists b,
      sends (snd (send_reply as_bytes self to subject reply_body thread_id
                             original_message_id references t))
      = sends t ++ [b].
Proof.
  rewrite send_reply_run. cbv zeta.
  destruct (service self) as [svc|]; [|left; reflexivity].
  destruct (getProfile svc t) as [profile|e].
  - destruct (emailAddress profile) as [[|c actual_sender]|].
    + left. cbn [snd]. rewrite sends_app. simpl. apply app_nil_r.
    + destruct (_create_reply_message _ _ _ _ _ _ _ _) as [b|e].
      * right. exists b.
        destruct (messages_send svc _ b) as [message|e].
        -- cbn [snd]. rewrite !sends_app. simpl. rewrite !app_nil_r.
           reflexivity.
        -- rewrite api_handlers_sends, !sends_app. simpl.
           rewrite !app_nil_r. reflexivity.
      * left. rewrite api_handlers_sends, sends_app. simpl. apply app_nil_r.
    + left. cbn [snd]. rewrite sends_app. simpl. apply app_nil_r.
  - left. rewrite api_handlers_sends, sends_app. simpl. apply app_nil_r.
Qed.

(* ================================================================= *)
(** * Further properties of the tools *)

(** ** Listing and searching, case by case *)

Lemma fetch_calls_app (t u : trace) :
  fetch_calls (t ++ u) = fetch_calls t ++ fetch_calls u.
Proof. apply flat_map_app. Qed.

Lemma log_records_app (t u : trace) :
  log_records (t ++ u) = log_records t ++ log_records u.
Proof. apply flat_map_app. Qed.

Lemma api_handlers_run {A} (http unexpected_log unexpected : str) (e : exn)
      (t : trace) :
  api_handlers (A := A) http unexpected_log unexpected e t
  = match e with
    | HttpError _ =>
        (Ok (Error (http ++ exn_text e)),
         t ++ [logging_call ERROR (http ++ exn_text e)])
    | Exception _ =>
        (Ok (Error (unexpected ++ exn_text e)),
         t ++ [logging_call ERROR (unexpected_log ++ exn_text e)])
    end.
Proof. destruct e; reflexivity. Qed.

(** The fetches ask for every id once, in order and in the metadata
    format, and log one warning for each failure and nothing else. *)
Lemma fetches_calls_and_log svc what t stubs outcomes t' :
  fetches svc what t stubs outcomes t' ->
  fetch_calls t'
  = fetch_calls t ++ map (fun s => (stub_id s, Metadata)) stubs
  /\ log_records t' = log_records t ++ skip_warnings what stubs outcomes
  /\ generate_prompts t' = generate_prompts t
  /\ sends t' = sends t.
Proof.
  induction 1 as [t|t stub rest msg outcomes t' Hget Hf IH
                  |t stub rest e outcomes t' Hget Hf IH].
  - unfold skip_warnings. simpl. rewrite !app_nil_r. auto.
  - destruct IH as (IH1 & IH2 & IH3 & IH4).
    rewrite IH1, IH2, IH3, IH4.
    rewrite fetch_calls_app, log_records_app, generate_prompts_app, sends_app.
    unfold skip_warnings. simpl. rewrite <- !app_assoc, !app_nil_r. auto.
  - destruct IH as (IH1 & IH2 & IH3 & IH4).
    rewrite IH1, IH2, IH3, IH4.
    rewrite !fetch_calls_app, !log_records_app, !generate_prompts_app,
      !sends_app.
    unfold skip_warnings. simpl. rewrite <- !app_assoc, !app_nil_r. auto.
Qed.

(** One run of the body shared by [list_recent_emails] and
    [search_emails], after the listing call. *)
Lemma list_recent_emails_run (self : GmailAgent) (svc : Service)
      (max_results : Z) (t : trace) :
  service self = Some svc ->
  let t1 := t ++ [messages_list_call (Some [py "INBOX"]) None max_results] in
  match messages_list svc t (Some [py "INBOX"]) None max_results with
  | Raise e =>
      list_recent_emails self max_results t
      = api_handlers (py "An API error occurred listing emails: ")
                     (py "An unexpected error occurred listing emails: ")
                     (py "An unexpected error occurred listing emails: ") e t1
  | Ok results =>
      match messages results with
      | None | Some [] =>
          list_recent_emails self max_results t
          = (Ok (Success []),
             t1 ++ [logging_call INFO (py "No recent emails found in INBOX.")])
      | Some stubs =>
          exists outcomes t',
            fetches svc (py "message ") t1 stubs outcomes t'
            /\ list_recent_emails self max_results t
               = (Ok (Success (kept stubs outcomes)), t')
      end
  end.
Proof.
  intros Hs t1.
  destruct (messages_list svc t _ _ _) as [results|e] eqn:Hl.
  - destruct (messages results) as [[|stub rest]|] eqn:Hm.
    + unfold list_recent_emails. rewrite Hs. unfold try_except, bind at 1.
      unfold do_messages_list at 1. rewrite Hl, Hm. reflexivity.
    + destruct (metadata_loop_run svc (py "message ") (stub :: rest) [] t1)
        as (outcomes & t' & Hf & Hrun).
      exists outcomes, t'. split; [assumption|].
      unfold list_recent_emails. rewrite Hs. unfold try_except, bind at 1.
      unfold do_messages_list at 1. rewrite Hl, Hm.
      unfold bind at 1. fold t1. rewrite Hrun. reflexivity.
    + unfold list_recent_emails. rewrite Hs. unfold try_except, bind at 1.
      unfold do_messages_list at 1. rewrite Hl, Hm. reflexivity.
  - unfold list_recent_emails. rewrite Hs. unfold try_except, bind at 1.
    unfold do_messages_list at 1. rewrite Hl. reflexivity.
Qed.

Lemma search_emails_run (self : GmailAgent) (svc : Service)
      (query : str) (max_results : Z) (t : trace) :
  service self = Some svc ->
  let t1 := t ++ [messages_list_call None (Some query) max_results] in
  match messages_list svc t None (Some query) max_results with
  | Raise e =>
      search_emails self query max_results t
      = api_handlers (py "An API error occurred searching emails: ")
                     (py "An unexpected error occurred searching emails: ")
                     (py "An unexpected error occurred searching emails: ") e t1
  | Ok results =>
      match messages results with
      | None | Some [] =>
          search_emails self query max_results t
          = (Ok (Success []),
             t1 ++ [logging_call INFO
                      (py "No emails found matching query: '" ++ query
                       ++ py "'")])
      | Some stubs =>
          exists outcomes t',
            fetches svc (py "searched message ") t1 stubs outcomes t'
            /\ search_emails self query max_results t
               = (Ok (Success (kept stubs outcomes)), t')
      end
  end.
Proof.
  intros Hs t1.
  destruct (messages_list svc t _ _ _) as [results|e] eqn:Hl.
  - destruct (messages results) as [[|stub rest]|] eqn:Hm.
    + unfold search_emails. rewrite Hs. unfold try_except, bind at 1.
      unfold do_messages_list at 1. rewrite Hl, Hm. reflexivity.
    + destruct (metadata_loop_run svc (py "searched message ") (stub :: rest) [] t1)
        as (outcomes & t' & Hf & Hrun).
      exists outcomes, t'. split; [assumption|].
      unfold search_emails. rewrite Hs. unfold try_except, bind at 1.
      unfold do_messages_list at 1. rewrite Hl, Hm.
      unfold bind at 1. fold t1. rewrite Hrun. reflexivity.
    + unfold search_emails. rewrite Hs. unfold try_except, bind at 1.
      unfold do_messages_list at 1. rewrite Hl, Hm. reflexivity.
  - unfold search_emails. rewrite Hs. unfold try_except, bind at 1.
    unfold do_messages_list at 1. rewrite Hl. reflexivity.
Qed.

(** X1.  With the service set up, [list_recent_emails] and
    [search_emails] succeed exactly when the listing call answers: the
    fetches of the single messages never change the status.  When the
    listing call raises, the envelope is an error that carries the text
    of the exception, no message is fetched and one error is logged. *)
Theorem listing_status_follows_listing_call (self : GmailAgent) (svc : Service) :
  service self = Some svc ->
  (forall max_results t,
      match messages_list svc t (Some [py "INBOX"]) None max_results with
      | Ok _ =>
          exists emails,
            fst (list_recent_emails self max_results t) = Ok (Success emails)
      | Raise e =>
          let text :=
            (match e with
             | HttpError _ => py "An API error occurred listing emails: "
             | Exception _ => py "An unexpected error occurred listing emails: "
             end) ++ exn_text e in
          fst (list_recent_emails self max_results t) = Ok (Error text)
          /\ fetch_calls (snd (list_recent_emails self max_results t))
             = fetch_calls t
          /\ log_records (snd (list_recent_emails self max_results t))
             = log_records t ++ [(ERROR, text)]
      end)
  /\ (forall query max_results t,
         match messages_list svc t None (Some query) max_results with
         | Ok _ =>
             exists emails,
               fst (search_emails self query max_results t)
               = Ok (Success emails)
         | Raise e =>
             let text :=
               (match e with
                | HttpError _ => py "An API error occurred searching emails: "
                | Exception _ =>
                    py "An unexpected error occurred searching emails: "
                end) ++ exn_text e in
             fst (search_emails self query max_results t) = Ok (Error text)
             /\ fetch_calls (snd (search_emails self query max_results t))
                = fetch_calls t
             /\ log_records (snd (search_emails self query max_results t))
                = log_records t ++ [(ERROR, text)]
         end).
Proof.
  intros Hs. split.
  - intros max_results t.
    pose proof (list_recent_emails_run self svc max_results t Hs) as R.
    cbv zeta in R.
    destruct (messages_list svc t _ _ _) as [results|e].
    + destruct (messages results) as [[|stub rest]|].
      * rewrite R. eexists; reflexivity.
      * destruct R as (outcomes & t' & _ & ->). eexists; reflexivity.
      * rewrite R. eexists; reflexivity.
    + rewrite R, api_handlers_run. cbv zeta.
      destruct e; cbn [fst snd];
        rewrite !fetch_calls_app, !log_records_app; simpl;
        rewrite !app_nil_r; auto.
  - intros query max_results t.
    pose proof (search_emails_run self svc query max_results t Hs) as R.
    cbv zeta in R.
    destruct (messages_list svc t _ _ _) as [results|e].
    + destruct (messages results) as [[|stub rest]|].
      * rewrite R. eexists; reflexivity.
      * destruct R as (outcomes & t' & _ & ->). eexists; reflexivity.
      * rewrite R. eexists; reflexivity.
    + rewrite R, api_handlers_run. cbv zeta.
      destruct e; cbn [fst snd];
        rewrite !fetch_calls_app, !log_records_app; simpl;
        rewrite !app_nil_r; auto.
Qed.

Lemma listing_status_follows_listing_call_witness :
  exists emails, fst (list_recent_emails example_agent 10 []) = Ok (Success emails).
Proof.
  exact (proj1 (listing_status_follows_listing_call
                  example_agent example_service eq_refl) 10%Z []).
Defined.

(** X2.  When the listing answers without the key ['messages'], or with
    an empty list, the tool returns a success with no email: nothing is
    fetched, and the only record logged is one at level INFO. *)
Theorem empty_listing_is_a_success (self : GmailAgent) (svc : Service) :
  service self = Some svc ->
  (forall max_results t results,
      messages_list svc t (Some [py "INBOX"]) None max_results = Ok results ->
      messages results = None \/ messages results = Some [] ->
      list_recent_emails self max_results t
      = (Ok (Success []),
         (t ++ [messages_list_call (Some [py "INBOX"]) None max_results])
         ++ [logging_call INFO (py "No recent emails found in INBOX.")]))
  /\ (forall query max_results t results,
         messages_list svc t None (Some query) max_results = Ok results ->
         messages results = None \/ messages results = Some [] ->
         search_emails self query max_results t
         = (Ok (Success []),
            (t ++ [messages_list_call None (Some query) max_results])
            ++ [logging_call INFO
                  (py "No emails found matching query: '" ++ query ++ py "'")])).
Proof.
  intros Hs. split.
  - intros max_results t results Hl Hm.
    pose proof (list_recent_emails_run self svc max_results t Hs) as R.
    cbv zeta in R. rewrite Hl in R.
    destruct Hm as [Hm|Hm]; rewrite Hm in R; exact R.
  - intros query max_results t results Hl Hm.
    pose proof (search_emails_run self svc query max_results t Hs) as R.
    cbv zeta in R. rewrite Hl in R.
    destruct Hm as [Hm|Hm]; rewrite Hm in R; exact R.
Qed.

(** X3.  When the listing answers, every id of the answer is asked for
    exactly once, in the order of the answer and in the metadata format,
    whatever the single fetches do; nothing is sent and nothing is asked
    of the generation backend. *)
Theorem listing_fetches_each_id_once (self : GmailAgent) (svc : Service) :
  service self = Some svc ->
  (forall max_results t results,
      messages_list svc t (Some [py "INBOX"]) None max_results = Ok results ->
      let t' := snd (list_recent_emails self max_results t) in
      fetch_calls t'
      = fetch_calls t
        ++ map (fun s => (stub_id s, Metadata))
               (match messages results with Some stubs => stubs | None => [] end)
      /\ sends t' = sends t
      /\ generate_prompts t' = generate_prompts t)
  /\ (forall query max_results t results,
         messages_list svc t None (Some query) max_results = Ok results ->
         let t' := snd (search_emails self query max_results t) in
         fetch_calls t'
         = fetch_calls t
           ++ map (fun s => (stub_id s, Metadata))
                  (match messages results with Some stubs => stubs | None => [] end)
         /\ sends t' = sends t
         /\ generate_prompts t' = generate_prompts t).
Proof.
  intros Hs. split.
  - intros max_results t results Hl.
    pose proof (list_recent_emails_run self svc max_results t Hs) as R.
    cbv zeta in R. rewrite Hl in R. cbv zeta.
    destruct (messages results) as [[|stub rest]|].
    + rewrite R. cbn [snd].
      rewrite !fetch_calls_app, !sends_app, !generate_prompts_app. simpl.
      rewrite !app_nil_r. auto.
    + destruct R as (outcomes & t' & Hf & ->). cbn [snd].
      destruct (fetches_calls_and_log _ _ _ _ _ _ Hf) as (F & _ & G & S).
      rewrite F, G, S.
      rewrite !fetch_calls_app, !sends_app, !generate_prompts_app. simpl.
      rewrite !app_nil_r. auto.
    + rewrite R. cbn [snd].
      rewrite !fetch_calls_app, !sends_app, !generate_prompts_app. simpl.
      rewrite !app_nil_r. auto.
  - intros query max_results t results Hl.
    pose proof (search_emails_run self svc query max_results t Hs) as R.
    cbv zeta in R. rewrite Hl in R. cbv zeta.
    destruct (messages results) as [[|stub rest]|].
    + rewrite R. cbn [snd].
      rewrite !fetch_calls_app, !sends_app, !generate_prompts_app. simpl.
      rewrite !app_nil_r. auto.
    + destruct R as (outcomes & t' & Hf & ->). cbn [snd].
      destruct (fetches_calls_and_log _ _ _ _ _ _ Hf) as (F & _ & G & S).
      rewrite F, G, S.
      rewrite !fetch_calls_app, !sends_app, !generate_prompts_app. simpl.
      rewrite !app_nil_r. auto.
    + rewrite R. cbn [snd].
      rewrite !fetch_calls_app, !sends_app, !generate_prompts_app. simpl.
      rewrite !app_nil_r. auto.
Qed.

Lemma empty_listing_is_a_success_witness :
  list_recent_emails empty_agent 10 []
  = (Ok (Success []),
     ([] ++ [messages_list_call (Some [py "INBOX"]) None 10])
     ++ [logging_call INFO (py "No recent emails found in INBOX.")]).
Proof.
  exact (proj1 (empty_listing_is_a_success empty_agent empty_service eq_refl)
               10%Z [] {| messages := None |} eq_refl (or_introl eq_refl)).
Defined.

Lemma listing_fetches_each_id_once_witness :
  fetch_calls (snd (search_emails example_agent (py "from:ada") 10 []))
  = fetch_calls []
    ++ map (fun s => (stub_id s, Metadata))
           (match messages {| messages := Some ten_stubs |} with
            | Some stubs => stubs
            | None => []
            end)
  /\ sends (snd (search_emails example_agent (py "from:ada") 10 [])) = sends []
  /\ generate_prompts (snd (search_emails example_agent (py "from:ada") 10 []))
     = generate_prompts [].
Proof.
  exact (proj2 (listing_fetches_each_id_once example_agent example_service
                  eq_refl)
               (py "from:ada") 10%Z [] {| messages := Some ten_stubs |} eq_refl).
Defined.


(** ** Summary of a message, case by case *)

(** [_get_email_body] raises nothing but what the decoder raises, which
    is never an [HttpError]. *)
Lemma a2b_base64_raises_exception (data : list N) :
  forall q l p out e,
    a2b_base64 data q l p out = Raise e -> exists text, e = Exception text.
Proof.
  induction data as [|c data IH]; intros q l p out e; cbn [a2b_base64].
  - destruct q as [|[|q]]; [discriminate| |]; intros [= <-]; eauto.
  - destruct (c =? 61)%N.
    + destruct (2 <=? q); [|apply IH].
      destruct (4 <=? q + S p); [discriminate|apply IH].
    + destruct (b64_value c); [|apply IH].
      destruct q as [|[|[|q]]]; apply IH.
Qed.

Lemma decode_data_raises_exception (d : str) (e : exn) :
  decode_data d = Raise e -> exists text, e = Exception text.
Proof.
  unfold decode_data.
  destruct (urlsafe_b64decode d) as [b|e'] eqn:E; [discriminate|].
  intros [= <-]. unfold urlsafe_b64decode in E.
  destruct (forallb _ d).
  - apply (a2b_base64_raises_exception _ _ _ _ _ _ E).
  - injection E as <-. eauto.
Qed.

Lemma plain_loop_raises_exception (l : list MessagePart) (e : exn) :
  plain_loop l = Some (Raise e) -> exists text, e = Exception text.
Proof.
  induction l as [|q l IH]; simpl; [discriminate|].
  destruct (mimeType_is q (py "text/plain")); [|assumption].
  destruct (part_data q) as [d|]; [|assumption].
  destruct (truthy d); [|assumption].
  intros [= H]. apply (decode_data_raises_exception d e H).
Qed.

Lemma html_loop_raises_exception (f : MessagePart -> result str)
      (l : list MessagePart) :
  Forall (fun q => forall e, f q = Raise e -> exists text, e = Exception text) l ->
  forall body e, html_loop f l body = Raise e -> exists text, e = Exception text.
Proof.
  induction 1 as [|q l Hq Hl IH]; simpl; intros body e; [discriminate|].
  destruct (parts q).
  - destruct (f q) as [nested|e'] eqn:Ef.
    + destruct (truthy nested); [discriminate|apply IH].
    + intros [= <-]. apply (Hq e' eq_refl).
  - destruct (mimeType_is q (py "text/html")); [|apply IH].
    destruct (part_data q) as [d|]; [|apply IH].
    destruct (truthy d); [|apply IH].
    destruct (truthy body); simpl; [apply IH|].
    destruct (decode_data d) as [s|e'] eqn:Ed; [apply IH|].
    intros [= <-]. apply (decode_data_raises_exception d e' Ed).
Qed.

Lemma get_email_body_raises_exception (p : MessagePart) (e : exn) :
  _get_email_body p = Raise e -> exists text, e = Exception text.
Proof.
  revert e.
  induction p as [mt hs b|mt hs b l IH] using MessagePart_tree_ind; intros e.
  - rewrite get_email_body_leaf by reflexivity.
    destruct (startswith _ _); [|discriminate].
    destruct (part_data _) as [d|]; [|discriminate].
    destruct (truthy d); [|discriminate].
    apply decode_data_raises_exception.
  - rewrite (get_email_body_parts (mkMessagePart mt hs b (Some l)) l eq_refl).
    destruct (plain_loop l) as [r|] eqn:Er.
    + intros ->. apply (plain_loop_raises_exception l e Er).
    + apply html_loop_raises_exception. assumption.
Qed.

(** X4.  With both back ends set up, [summarize_email_with_gemini]
    returns a success with the fields [fields] exactly when the message
    was fetched, its body was extracted and either the body is empty and
    the summary is the placeholder, or the body is not empty and the
    summary is the answer of the generation backend; the other fields
    are read from the headers of the message. *)
Theorem summarize_success_characterised
        (self : GmailAgent) (svc : Service) (model : GenerativeModel)
        (email_id : str) (t : trace) (fields : Summary) :
  service self = Some svc ->
  gemini_model self = Some model ->
  fst (summarize_email_with_gemini self email_id t) = Ok (Success fields)
  <-> exists message email_body summary_text,
      messages_get svc t email_id Full = Ok message
      /\ _get_email_body (payload_of message) = Ok email_body
      /\ fields = summary_fields message summary_text email_body
      /\ (email_body = []
          /\ summary_text = py "Could not extract email body to summarize."
          \/ email_body <> []
             /\ generate_content model (t ++ [messages_get_call email_id Full])
                  (summary_prompt
                     (header_value (headers_of message) (py "subject")
                                   (py "No Subject")) email_body)
                = Ok summary_text).
Proof.
  intros Hs Hm. rewrite (summarize_run self svc model email_id t Hs Hm).
  cbv zeta. split.
  - destruct (messages_get svc t email_id Full) as [message|e] eqn:Hget;
      [|rewrite api_handlers_run; destruct e; discriminate].
    destruct (_get_email_body (payload_of message)) as [[|c b]|e] eqn:Hb;
      [| |rewrite api_handlers_run; destruct e; discriminate].
    + intros [= <-].
      exists message, [], (py "Could not extract email body to summarize.").
      split; [reflexivity|]. split; [assumption|]. split; [reflexivity|].
      left. split; reflexivity.
    + destruct (generate_content model _ _) as [text|gen_e] eqn:G;
        [|discriminate].
      intros [= <-]. exists message, (c :: b), text.
      split; [reflexivity|]. split; [assumption|]. split; [reflexivity|].
      right. split; [discriminate|assumption].
  - intros (message & email_body & summary_text & -> & Hb & -> & H).
    rewrite Hb.
    destruct H as [(-> & ->)|(Hne & G)]; [reflexivity|].
    destruct email_body as [|c b]; [congruence|].
    rewrite G. reflexivity.
Qed.

Lemma summarize_success_characterised_witness :
  fst (summarize_email_with_gemini example_agent (py "m-empty") [])
  = Ok (Success (summary_fields (example_message None)
                   (py "Could not extract email body to summarize.") [])).
Proof.
  apply (proj2 (summarize_success_characterised
                  example_agent example_service example_model
                  (py "m-empty") []
                  (summary_fields (example_message None)
                     (py "Could not extract email body to summarize.") [])
                  eq_refl eq_refl)).
  exists (example_message None), [],
    (py "Could not extract email body to summarize.").
  split; [reflexivity|]. split; [reflexivity|]. split; [reflexivity|].
  left. split; reflexivity.
Defined.

(** X5.  With both back ends set up, a failure before the generation
    gives an error envelope and no prompt is sent: when the fetch
    raises, and when [_get_email_body] raises on the fetched message, in
    which case the message of the envelope is that of an unexpected error
    followed by the text of the decoder's exception. *)
Theorem summarize_fails_before_generation
        (self : GmailAgent) (svc : Service) (model : GenerativeModel)
        (email_id : str) (t : trace) :
  service self = Some svc ->
  gemini_model self = Some model ->
  (forall e,
      messages_get svc t email_id Full = Raise e ->
      fst (summarize_email_with_gemini self email_id t)
      = Ok (Error
              ((match e with
                | HttpError _ =>
                    py "An API error occurred fetching email " ++ email_id
                    ++ py ": "
                | Exception _ =>
                    py "An unexpected error occurred during summarization: "
                end) ++ exn_text e))
      /\ generate_prompts (snd (summarize_email_with_gemini self email_id t))
         = generate_prompts t)
  /\ (forall message e,
         messages_get svc t email_id Full = Ok message ->
         _get_email_body (payload_of message) = Raise e ->
         fst (summarize_email_with_gemini self email_id t)
         = Ok (Error (py "An unexpected error occurred during summarization: "
                      ++ exn_text e))
         /\ generate_prompts (snd (summarize_email_with_gemini self email_id t))
            = generate_prompts t).
Proof.
  intros Hs Hm. rewrite (summarize_run self svc model email_id t Hs Hm).
  cbv zeta. split.
  - intros e ->. rewrite api_handlers_run.
    destruct e; cbn [fst snd]; rewrite !generate_prompts_app; simpl;
      rewrite !app_nil_r; auto.
  - intros message e -> Hb. rewrite Hb, api_handlers_run.
    destruct (get_email_body_raises_exception _ _ Hb) as (text & ->).
    cbn [fst snd]. rewrite !generate_prompts_app. simpl.
    rewrite !app_nil_r. auto.
Qed.

(** X6.  With both back ends set up and a body that is not empty, an
    exception of the generation backend gives the error envelope
    [Gemini content generation failed: ...] with the text of the
    exception; the prompt was sent once and the failure is logged with
    the id of the message. *)
Theorem summarize_generation_failure
        (self : GmailAgent) (svc : Service) (model : GenerativeModel)
        (email_id : str) (t : trace) (message : Message) (email_body : str)
        (gen_e : exn) :
  service self = Some svc ->
  gemini_model self = Some model ->
  messages_get svc t email_id Full = Ok message ->
  _get_email_body (payload_of message) = Ok email_body ->
  email_body <> [] ->
  let prompt :=
    summary_prompt (header_value (headers_of message) (py "subject")
                                 (py "No Subject")) email_body in
  generate_content model (t ++ [messages_get_call email_id Full]) prompt
  = Raise gen_e ->
  fst (summarize_email_with_gemini self email_id t)
  = Ok (Error (py "Gemini content generation failed: " ++ exn_text gen_e))
  /\ generate_prompts (snd (summarize_email_with_gemini self email_id t))
     = generate_prompts t ++ [prompt]
  /\ log_records (snd (summarize_email_with_gemini self email_id t))
     = log_records t
       ++ [(ERROR, py "Gemini content generation failed for email "
                   ++ email_id ++ py ": " ++ exn_text gen_e)].
Proof.
  intros Hs Hm Hget Hb Hne prompt G.
  rewrite (summarize_run self svc model email_id t Hs Hm).
  cbv zeta. rewrite Hget, Hb.
  destruct email_body as [|c b]; [congruence|].
  fold prompt. rewrite G. cbn [fst snd].
  rewrite !generate_prompts_app, !log_records_app. simpl.
  rewrite !app_nil_r. auto.
Qed.

Lemma summarize_fails_before_generation_witness :
  fst (summarize_email_with_gemini truncated_agent (py "m1") [])
  = Ok (Error (py "An unexpected error occurred during summarization: "
               ++ exn_text (Exception (py "Incorrect padding"))))
  /\ generate_prompts (snd (summarize_email_with_gemini truncated_agent (py "m1") []))
     = generate_prompts [].
Proof.
  exact (proj2 (summarize_fails_before_generation
                  truncated_agent truncated_service failing_model (py "m1") []
                  eq_refl eq_refl)
               (example_message (Some (py "abc")))
               (Exception (py "Incorrect padding")) eq_refl eq_refl).
Defined.

Lemma summarize_generation_failure_witness :
  fst (summarize_email_with_gemini failing_model_agent (py "m7") [])
  = Ok (Error (py "Gemini content generation failed: "
               ++ exn_text (Exception (py "quota exceeded"))))
  /\ generate_prompts (snd (summarize_email_with_gemini failing_model_agent (py "m7") []))
     = generate_prompts [] ++ [summary_prompt (py "Report") (py "hi")]
  /\ log_records (snd (summarize_email_with_gemini failing_model_agent (py "m7") []))
     = log_records []
       ++ [(ERROR, py "Gemini content generation failed for email "
                   ++ py "m7" ++ py ": "
                   ++ exn_text (Exception (py "quota exceeded")))].
Proof.
  refine (summarize_generation_failure
            failing_model_agent example_service failing_model (py "m7") []
            (example_message (Some (py "aGk="))) (py "hi")
            (Exception (py "quota exceeded"))
            eq_refl eq_refl eq_refl eq_refl _ eq_refl).
  discriminate.
Defined.


(** ** Draft of a reply *)

Lemma lstrip_split (s : str) :
  exists ws, s = ws ++ lstrip s /\ blank ws = true.
Proof.
  induction s as [|c s (ws & E & B)]; simpl.
  - exists []. auto.
  - destruct (isspace c) eqn:C.
    + exists (c :: ws). simpl. rewrite C, B. split; [|reflexivity].
      f_equal. exact E.
    + exists []. auto.
Qed.

Lemma lstrip_head (s : str) (c : N) (r : str) :
  lstrip s = c :: r -> isspace c = false.
Proof.
  induction s as [|x s IH]; simpl; [discriminate|].
  destruct (isspace x) eqn:X; [assumption|].
  intros [= <- <-]. assumption.
Qed.

Lemma lstrip_fixed (c : N) (r : str) :
  isspace c = false -> lstrip (c :: r) = c :: r.
Proof. simpl. intros ->. reflexivity. Qed.

Lemma rstrip_split (s : str) :
  exists ws, s = rstrip s ++ ws /\ blank ws = true.
Proof.
  unfold rstrip. destruct (lstrip_split (rev s)) as (ws & E & B).
  exists (rev ws). split.
  - rewrite <- rev_app_distr, <- E, rev_involutive. reflexivity.
  - unfold blank in *. rewrite forallb_forall in *.
    intros x Hx. apply B. apply in_rev. assumption.
Qed.

Lemma rstrip_last (s : str) (d : N) :
  rstrip s <> [] -> isspace (last (rstrip s) d) = false.
Proof.
  unfold rstrip. destruct (lstrip (rev s)) as [|c r] eqn:E;
    [intros H; elim H; reflexivity|].
  intros _. simpl rev. rewrite last_last. apply (lstrip_head _ _ _ E).
Qed.

Lemma rstrip_fixed (s : str) (d : N) :
  s <> [] -> isspace (last s d) = false -> rstrip s = s.
Proof.
  intros Hne Hl. unfold rstrip.
  destruct (exists_last Hne) as (s' & c & ->).
  rewrite last_last in Hl. rewrite rev_app_distr.
  change (rev [c] ++ rev s') with (c :: rev s').
  rewrite (lstrip_fixed c (rev s') Hl).
  simpl. rewrite rev_involutive. reflexivity.
Qed.

Lemma strip_split (s : str) :
  exists l r, s = l ++ strip s ++ r /\ blank l = true /\ blank r = true.
Proof.
  unfold strip. destruct (lstrip_split s) as (l & El & Bl).
  destruct (rstrip_split (lstrip s)) as (r & Er & Br).
  exists l, r. split; [|auto]. rewrite <- Er. assumption.
Qed.

Lemma strip_trimmed (s : str) : trimmed (strip s) = true.
Proof.
  unfold trimmed. destruct (strip s) as [|c r] eqn:E; [reflexivity|].
  assert (Hl : isspace (last (c :: r) c) = false).
  { rewrite <- E. unfold strip. apply rstrip_last.
    unfold strip in E. rewrite E. discriminate. }
  rewrite Hl, andb_true_r.
  unfold strip in E. destruct (rstrip_split (lstrip s)) as (ws & Ews & _).
  rewrite E in Ews. simpl in Ews.
  rewrite (lstrip_head s c (r ++ ws) Ews). reflexivity.
Qed.

Lemma strip_fixed (s : str) : trimmed s = true -> strip s = s.
Proof.
  destruct s as [|c r]; [reflexivity|]. unfold trimmed.
  intros H. apply andb_true_iff in H as [Hc Hl].
  apply negb_true_iff in Hc, Hl.
  unfold strip. rewrite (lstrip_fixed c r Hc).
  apply (rstrip_fixed (c :: r) c); [discriminate|assumption].
Qed.

Lemma reply_prompt_firstn (original_subject original_body : str) :
  reply_prompt original_subject original_body
  = py "Generate a professional and concise reply draft for the following email."
    ++ [10%N]
    ++ py "Focus on addressing the main points or questions. Omit salutations (like "
    ++ [34%N] ++ py "Hi Name," ++ [34%N] ++ py ") and closings (like "
    ++ [34%N] ++ py "Best," ++ [34%N] ++ py ")." ++ [10%N; 10%N]
    ++ py "Original Email Subject: " ++ original_subject ++ [10%N]
    ++ py "Original Email Body (first 2000 chars):" ++ [10%N]
    ++ py "---" ++ [10%N]
    ++ firstn 2000 original_body ++ [10%N]
    ++ py "---" ++ [10%N; 10%N]
    ++ py "Generated Reply Draft (body only):".
Proof.
  unfold reply_prompt.
  change 2000%Z with (Z.of_nat 2000). rewrite slice_to_firstn. reflexivity.
Qed.

(** One run of [generate_reply_with_gemini] with the model set up. *)
Lemma generate_reply_run (self : GmailAgent) (model : GenerativeModel)
      (original_subject original_body : str) (t : trace) :
  gemini_model self = Some model ->
  let t0 :=
    match original_body with
    | [] =>
        t ++ [logging_call WARNING
                (py "Attempting to generate reply without original email body.")]
    | _ :: _ => t
    end in
  let prompt := reply_prompt original_subject original_body in
  generate_reply_with_gemini self original_subject original_body t
  = match generate_content model t0 prompt with
    | Ok text =>
        (Ok (Success (strip text)), t0 ++ [generate_content_call prompt])
    | Raise e =>
        (Ok (Error (py "An error occurred during reply generation: "
                    ++ exn_text e)),
         (t0 ++ [generate_content_call prompt])
         ++ [logging_call ERROR
               (py "An error occurred during reply generation: "
                ++ exn_text e)])
    end.
Proof.
  intros Hm t0 prompt. unfold generate_reply_with_gemini. rewrite Hm.
  unfold bind at 1.
  destruct original_body as [|c b]; cbn [truthy negb logging ret];
    unfold try_except, bind at 1; unfold do_generate_content at 1;
    fold prompt; subst t0; cbv beta iota;
    destruct (generate_content model _ prompt); reflexivity.
Qed.

(** X7.  With the model set up, [generate_reply_with_gemini] asks the
    generation backend exactly once, whether the original body is empty
    or not; the prompt holds the subject and the first 2000 characters of
    the body; an empty body only adds a warning to the log, before the
    call. *)
Theorem generate_reply_asks_once_with_truncated_body
        (self : GmailAgent) (model : GenerativeModel)
        (original_subject original_body : str) (t : trace) :
  gemini_model self = Some model ->
  let t' :=
    snd (generate_reply_with_gemini self original_subject original_body t) in
  generate_prompts t'
  = generate_prompts t
    ++ [py "Generate a professional and concise reply draft for the following email."
        ++ [10%N]
        ++ py "Focus on addressing the main points or questions. Omit salutations (like "
        ++ [34%N] ++ py "Hi Name," ++ [34%N] ++ py ") and closings (like "
        ++ [34%N] ++ py "Best," ++ [34%N] ++ py ")." ++ [10%N; 10%N]
        ++ py "Original Email Subject: " ++ original_subject ++ [10%N]
        ++ py "Original Email Body (first 2000 chars):" ++ [10%N]
        ++ py "---" ++ [10%N]
        ++ firstn 2000 original_body ++ [10%N]
        ++ py "---" ++ [10%N; 10%N]
        ++ py "Generated Reply Draft (body only):"]
  /\ (original_body = [] ->
      exists rest,
        t' = (t ++ [logging_call WARNING
                      (py "Attempting to generate reply without original email body.")])
             ++ generate_content_call (reply_prompt original_subject [])
             :: rest)
  /\ fetch_calls t' = fetch_calls t
  /\ sends t' = sends t.
Proof.
  intros Hm t'. subst t'.
  rewrite (generate_reply_run self model original_subject original_body t Hm).
  cbv zeta. rewrite <- reply_prompt_firstn.
  destruct (generate_content model _ _) as [text|e]; cbn [snd];
    (split; [|split; [|split]]).
  - destruct original_body; rewrite !generate_prompts_app; simpl;
      rewrite ?app_nil_r; reflexivity.
  - intros ->. exists []. reflexivity.
  - destruct original_body; rewrite !fetch_calls_app; simpl;
      rewrite ?app_nil_r; reflexivity.
  - destruct original_body; rewrite !sends_app; simpl;
      rewrite ?app_nil_r; reflexivity.
  - destruct original_body; rewrite !generate_prompts_app; simpl;
      rewrite ?app_nil_r; reflexivity.
  - intros ->. eexists. rewrite <- app_assoc. reflexivity.
  - destruct original_body; rewrite !fetch_calls_app; simpl;
      rewrite ?app_nil_r; reflexivity.
  - destruct original_body; rewrite !sends_app; simpl;
      rewrite ?app_nil_r; reflexivity.
Qed.

Lemma generate_reply_asks_once_with_truncated_body_witness :
  exists rest,
    snd (generate_reply_with_gemini example_agent (py "Report") [] [])
    = ([] ++ [logging_call WARNING
                (py "Attempting to generate reply without original email body.")])
      ++ generate_content_call (reply_prompt (py "Report") []) :: rest.
Proof.
  exact (proj1 (proj2 (generate_reply_asks_once_with_truncated_body
                         example_agent example_model (py "Report") [] []
                         eq_refl))
               eq_refl).
Defined.

(** X8.  With the model set up, the draft that
    [generate_reply_with_gemini] returns is the answer of the generation
    backend without the white space around it: the answer is the draft
    between two runs of white space, and the draft neither starts nor
    ends with white space.  An exception of the backend gives an error
    envelope with its text. *)
Theorem generate_reply_returns_trimmed_answer
        (self : GmailAgent) (model : GenerativeModel)
        (original_subject original_body : str) (t : trace) :
  gemini_model self = Some model ->
  let t0 :=
    match original_body with
    | [] =>
        t ++ [logging_call WARNING
                (py "Attempting to generate reply without original email body.")]
    | _ :: _ => t
    end in
  match generate_content model t0 (reply_prompt original_subject original_body) with
  | Ok text =>
      exists reply_body l r,
        fst (generate_reply_with_gemini self original_subject original_body t)
        = Ok (Success reply_body)
        /\ text = l ++ reply_body ++ r
        /\ blank l = true /\ blank r = true
        /\ trimmed reply_body = true
  | Raise e =>
      fst (generate_reply_with_gemini self original_subject original_body t)
      = Ok (Error (py "An error occurred during reply generation: "
                   ++ exn_text e))
  end.
Proof.
  intros Hm t0.
  rewrite (generate_reply_run self model original_subject original_body t Hm).
  cbv zeta. fold t0.
  destruct (generate_content model t0 _) as [text|e]; [|reflexivity].
  destruct (strip_split text) as (l & r & E & Bl & Br).
  exists (strip text), l, r. repeat split; try assumption.
  apply strip_trimmed.
Qed.

Lemma generate_reply_returns_trimmed_answer_witness :
  exists reply_body l r,
    fst (generate_reply_with_gemini padded_model_agent (py "Report") (py "hi") [])
    = Ok (Success reply_body)
    /\ [10%N; 32%N] ++ py "Thank you." ++ [32%N; 10%N] = l ++ reply_body ++ r
    /\ blank l = true /\ blank r = true
    /\ trimmed reply_body = true.
Proof.
  exact (generate_reply_returns_trimmed_answer
           padded_model_agent padded_model (py "Report") (py "hi") [] eq_refl).
Defined.


(** ** The base64 of the reply and of the bodies *)

Lemma all256_spec (f : N -> bool) :
  all256 f = true -> forall x, (x < 256)%N -> f x = true.
Proof.
  unfold all256. rewrite forallb_forall. intros H x Hx. apply H.
  rewrite <- (N2Nat.id x). apply in_map. apply in_seq. lia.
Qed.

Lemma sextet_read_back (v : N) :
  (v < 64)%N ->
  (urlsafe_translate (b64_urlsafe_char v) =? 61)%N = false
  /\ b64_value (urlsafe_translate (b64_urlsafe_char v)) = Some v.
Proof.
  intros Hv.
  assert (H : sextet_check v = true).
  { apply (all256_spec sextet_check); [vm_compute; reflexivity|lia]. }
  unfold sextet_check in H.
  apply orb_true_iff in H as [H|H]; [apply N.leb_le in H; lia|].
  apply andb_true_iff in H as [H1 H2]. apply negb_true_iff in H1.
  split; [assumption|].
  destruct (b64_value _) as [w|]; [|discriminate].
  apply N.eqb_eq in H2. congruence.
Qed.

Lemma quad_check_xy_holds (x y : N) :
  (x < 256)%N -> (y < 256)%N -> quad_check_xy x y = true.
Proof.
  intros Hx Hy.
  apply (all256_spec (fun y => quad_check_xy x y)); [|assumption].
  revert x Hx.
  apply (all256_spec (fun x => all256 (fun y => quad_check_xy x y))).
  vm_compute. reflexivity.
Qed.

Lemma quad_check_yz_holds (y z : N) :
  (y < 256)%N -> (z < 256)%N -> quad_check_yz y z = true.
Proof.
  intros Hy Hz.
  apply (all256_spec (fun z => quad_check_yz y z)); [|assumption].
  revert y Hy.
  apply (all256_spec (fun y => all256 (fun z => quad_check_yz y z))).
  vm_compute. reflexivity.
Qed.

(** One step of the decoder on the character of a sextet. *)
Lemma a2b_base64_sextet (v : N) (rest : list N) (q : nat) (l : N) (p : nat)
      (out : bytes) :
  (v < 64)%N ->
  a2b_base64 (urlsafe_translate (b64_urlsafe_char v) :: rest) q l p out
  = match q with
    | 0 => a2b_base64 rest 1 v 0 out
    | 1 =>
        a2b_base64 rest 2 (N.land v 15) 0
          (out ++ [N.lor (N.shiftl l 2) (N.shiftr v 4)])
    | 2 =>
        a2b_base64 rest 3 (N.land v 3) 0
          (out ++ [N.lor (N.shiftl l 4) (N.shiftr v 2)])
    | _ => a2b_base64 rest 0 0%N 0 (out ++ [N.lor (N.shiftl l 6) v])
    end.
Proof.
  intros Hv. destruct (sextet_read_back v Hv) as (H61 & Hval).
  cbn [a2b_base64]. rewrite H61, Hval. reflexivity.
Qed.

Lemma list_ind3 {A} (P : list A -> Prop) :
  P [] -> (forall x, P [x]) -> (forall x y, P [x; y]) ->
  (forall x y z l, P l -> P (x :: y :: z :: l)) ->
  forall l, P l.
Proof.
  intros H0 H1 H2 H3. fix F 1.
  intros [|x [|y [|z l]]]; [exact H0|apply H1|apply H2|].
  apply H3. apply F.
Qed.

Lemma a2b_base64_encoded (b : bytes) :
  is_bytes b = true ->
  forall out,
    a2b_base64 (map urlsafe_translate (urlsafe_b64encode b)) 0 0%N 0 out
    = Ok (out ++ b).
Proof.
  unfold is_bytes.
  induction b as [|x|x y|x y z b IH] using list_ind3; intros Hb out.
  - simpl. rewrite app_nil_r. reflexivity.
  - simpl in Hb. rewrite andb_true_r in Hb. apply N.ltb_lt in Hb.
    pose proof (quad_check_xy_holds x 0 Hb eq_refl) as Q.
    unfold quad_check_xy in Q.
    repeat (apply andb_true_iff in Q as [Q ?]).
    repeat match goal with
           | H : (_ <? _)%N = true |- _ => apply N.ltb_lt in H
           | H : (_ =? _)%N = true |- _ => apply N.eqb_eq in H
           end.
    cbn [urlsafe_b64encode map].
    rewrite !a2b_base64_sextet by assumption.
    match goal with H : N.lor _ (N.shiftr (N.shiftl _ _) _) = x |- _ =>
      rewrite H end.
    reflexivity.
  - simpl in Hb. rewrite andb_true_r in Hb.
    apply andb_true_iff in Hb as [Hx Hy].
    apply N.ltb_lt in Hx, Hy.
    pose proof (quad_check_xy_holds x y Hx Hy) as Q.
    pose proof (quad_check_yz_holds y 0 Hy eq_refl) as R.
    unfold quad_check_xy in Q. unfold quad_check_yz in R.
    repeat (apply andb_true_iff in Q as [Q ?]).
    repeat (apply andb_true_iff in R as [R ?]).
    repeat match goal with
           | H : (_ <? _)%N = true |- _ => apply N.ltb_lt in H
           | H : (_ =? _)%N = true |- _ => apply N.eqb_eq in H
           end.
    cbn [urlsafe_b64encode map].
    rewrite !a2b_base64_sextet by assumption.
    match goal with H : N.lor _ (N.shiftr (N.lor _ _) 4) = x |- _ =>
      rewrite H end.
    match goal with H : N.land _ 15 = N.shiftr y 4 |- _ => rewrite H end.
    match goal with H : N.lor _ (N.shiftr (N.shiftl _ _) _) = y |- _ =>
      rewrite H end.
    cbn. rewrite <- app_assoc. reflexivity.
  - simpl in Hb.
    apply andb_true_iff in Hb as [Hx Hb].
    apply andb_true_iff in Hb as [Hy Hb].
    apply andb_true_iff in Hb as [Hz Hb].
    apply N.ltb_lt in Hx, Hy, Hz.
    pose proof (quad_check_xy_holds x y Hx Hy) as Q.
    pose proof (quad_check_yz_holds y z Hy Hz) as R.
    unfold quad_check_xy in Q. unfold quad_check_yz in R.
    repeat (apply andb_true_iff in Q as [Q ?]).
    repeat (apply andb_true_iff in R as [R ?]).
    repeat match goal with
           | H : (_ <? _)%N = true |- _ => apply N.ltb_lt in H
           | H : (_ =? _)%N = true |- _ => apply N.eqb_eq in H
           end.
    cbn [urlsafe_b64encode map].
    rewrite !a2b_base64_sextet by assumption.
    match goal with H : N.lor _ (N.shiftr (N.lor _ _) 4) = x |- _ =>
      rewrite H end.
    match goal with H : N.land _ 15 = N.shiftr y 4 |- _ => rewrite H end.
    match goal with H : N.lor _ (N.shiftr (N.lor _ _) 2) = y |- _ =>
      rewrite H end.
    match goal with H : N.lor _ (N.land z 63) = z |- _ => rewrite H end.
    rewrite (IH Hb). rewrite <- !app_assoc. reflexivity.
Qed.

Lemma b64_urlsafe_char_alphabet (v : N) :
  (b64_urlsafe_char v <? 128)%N = true
  /\ (43 =? b64_urlsafe_char v)%N = false
  /\ (47 =? b64_urlsafe_char v)%N = false.
Proof.
  unfold b64_urlsafe_char.
  destruct (v <? 26)%N eqn:E1;
    [apply N.ltb_lt in E1; repeat split;
     [apply N.ltb_lt|apply N.eqb_neq|apply N.eqb_neq]; lia|].
  destruct (v <? 52)%N eqn:E2;
    [apply N.ltb_lt in E2; apply N.ltb_ge in E1; repeat split;
     [apply N.ltb_lt|apply N.eqb_neq|apply N.eqb_neq]; lia|].
  destruct (v <? 62)%N eqn:E3;
    [apply N.ltb_lt in E3; apply N.ltb_ge in E2; repeat split;
     [apply N.ltb_lt|apply N.eqb_neq|apply N.eqb_neq]; lia|].
  destruct (v =? 62)%N; repeat split.
Qed.

Lemma urlsafe_b64encode_alphabet (b : bytes) :
  is_ascii (urlsafe_b64encode b) = true
  /\ contains 43%N (urlsafe_b64encode b) = false
  /\ contains 47%N (urlsafe_b64encode b) = false.
Proof.
  unfold is_ascii, contains.
  induction b as [|x|x y|x y z b (IH1 & IH2 & IH3)] using list_ind3;
    cbn [urlsafe_b64encode forallb existsb];
    repeat match goal with
           | |- context [b64_urlsafe_char ?v] =>
               let H1 := fresh in let H2 := fresh in let H3 := fresh in
               destruct (b64_urlsafe_char_alphabet v) as (H1 & H2 & H3);
               rewrite ?H1, ?H2, ?H3;
               generalize dependent (b64_urlsafe_char v); intros
           end;
    auto.
Qed.

Lemma urlsafe_b64_round_trip (b : bytes) :
  is_bytes b = true -> urlsafe_b64decode (urlsafe_b64encode b) = Ok b.
Proof.
  intros Hb. unfold urlsafe_b64decode.
  destruct (urlsafe_b64encode_alphabet b) as (Ha & _).
  unfold is_ascii in Ha. rewrite Ha.
  apply (a2b_base64_encoded b Hb []).
Qed.

Lemma utf8_decode_ascii (s : str) :
  is_ascii s = true -> utf8_decode_replace s = s.
Proof.
  unfold is_ascii. induction s as [|c s IH]; [reflexivity|].
  cbn [forallb utf8_decode_replace]. intros H.
  apply andb_true_iff in H as [Hc Hs]. rewrite Hc, (IH Hs). reflexivity.
Qed.

Lemma is_ascii_is_bytes (s : str) : is_ascii s = true -> is_bytes s = true.
Proof.
  unfold is_ascii, is_bytes. rewrite !forallb_forall. intros H x Hx.
  specialize (H x Hx). apply N.ltb_lt in H. apply N.ltb_lt. lia.
Qed.

Lemma decode_data_round_trip (s : str) :
  is_ascii s = true -> decode_data (urlsafe_b64encode s) = Ok s.
Proof.
  intros Hs. unfold decode_data.
  rewrite (urlsafe_b64_round_trip s (is_ascii_is_bytes s Hs)).
  rewrite (utf8_decode_ascii s Hs). reflexivity.
Qed.

Lemma urlsafe_b64encode_truthy (b : bytes) :
  truthy (urlsafe_b64encode b) = truthy b.
Proof. destruct b as [|x [|y [|z b]]]; reflexivity. Qed.

(** X9.  What [_create_reply_message] hands to the service, when the
    serialiser gives the bytes [wire]: the thread id it was given, and a
    [raw] string made of ASCII characters without ['+'] and ['/'] that
    the url-safe base64 decoder reads back as [wire].  When the
    serialiser raises, so does [_create_reply_message]. *)
Theorem create_reply_message_raw_round_trip
        (as_bytes : MIMEMultipart -> result bytes)
        (sender to subject reply_body thread_id original_message_id
         references : str) :
  match as_bytes (reply_message sender to subject reply_body
                                original_message_id references) with
  | Ok wire =>
      is_bytes wire = true ->
      exists d,
        _create_reply_message as_bytes sender to subject reply_body thread_id
                              original_message_id references = Ok d
        /\ raw_threadId d = thread_id
        /\ urlsafe_b64decode (raw d) = Ok wire
        /\ is_ascii (raw d) = true
        /\ contains 43%N (raw d) = false
        /\ contains 47%N (raw d) = false
  | Raise e =>
      _create_reply_message as_bytes sender to subject reply_body thread_id
                            original_message_id references = Raise e
  end.
Proof.
  unfold _create_reply_message.
  destruct (as_bytes _) as [wire|e]; [|reflexivity].
  intros Hw. eexists. split; [reflexivity|]. cbn [raw raw_threadId].
  destruct (urlsafe_b64encode_alphabet wire) as (H1 & H2 & H3).
  repeat split; try assumption.
  apply urlsafe_b64_round_trip. assumption.
Qed.

Lemma create_reply_message_raw_round_trip_witness :
  exists d,
    _create_reply_message example_as_bytes (py "me@example.org")
      (py "ada@example.org") (py "Re: Report") (py "Thank you.") (py "t1")
      (py "<m1>") (py "<a> <b>") = Ok d
    /\ raw_threadId d = py "t1"
    /\ urlsafe_b64decode (raw d)
       = example_as_bytes
           (reply_message (py "me@example.org") (py "ada@example.org")
                          (py "Re: Report") (py "Thank you.") (py "<m1>")
                          (py "<a> <b>"))
    /\ is_ascii (raw d) = true
    /\ contains 43%N (raw d) = false
    /\ contains 47%N (raw d) = false.
Proof.
  exact (create_reply_message_raw_round_trip example_as_bytes
           (py "me@example.org") (py "ada@example.org") (py "Re: Report")
           (py "Thank you.") (py "t1") (py "<m1>") (py "<a> <b>") eq_refl).
Defined.

(** X10.  A text of ASCII characters comes back from its base64: for a
    message that is one part of a text type, and for a multipart message
    whose first part with data is text/plain, [_get_email_body] returns
    the text whose url-safe base64 is the data of the part. *)
Theorem get_email_body_reads_back_ascii_text (text mt : str) :
  is_ascii text = true ->
  startswith mt (py "text/") = true ->
  (forall hs,
      _get_email_body
        {| mimeType := Some mt; headers := hs;
           body := Some {| data := Some (urlsafe_b64encode text) |};
           parts := None |} = Ok text)
  /\ (forall mt' hs b pre rest hs',
         existsb carries_plain_text pre = false ->
         text <> [] ->
         _get_email_body
           {| mimeType := mt'; headers := hs; body := b;
              parts :=
                Some (pre
                      ++ {| mimeType := Some (py "text/plain"); headers := hs';
                            body := Some {| data := Some (urlsafe_b64encode text) |};
                            parts := None |} :: rest) |} = Ok text).
Proof.
  intros Ha Hmt. split.
  - intros hs. rewrite get_email_body_leaf by reflexivity.
    cbn [mimeType part_data body data]. rewrite Hmt.
    rewrite urlsafe_b64encode_truthy.
    destruct text as [|c r]; [reflexivity|]. cbn [truthy].
    apply decode_data_round_trip. assumption.
  - intros mt' hs b pre rest hs' Hpre Hne.
    erewrite get_email_body_parts by reflexivity.
    rewrite plain_loop_skips by assumption.
    cbn [plain_loop mimeType_is mimeType part_data body data].
    rewrite str_eqb_refl, urlsafe_b64encode_truthy.
    destruct text as [|c r]; [congruence|]. cbn [truthy].
    apply decode_data_round_trip. assumption.
Qed.

Lemma get_email_body_reads_back_ascii_text_witness :
  _get_email_body
    {| mimeType := Some (py "text/calendar"); headers := None;
       body := Some {| data := Some (urlsafe_b64encode (py "BEGIN:VCALENDAR")) |};
       parts := None |} = Ok (py "BEGIN:VCALENDAR").
Proof.
  exact (proj1 (get_email_body_reads_back_ascii_text
                  (py "BEGIN:VCALENDAR") (py "text/calendar") eq_refl eq_refl)
               None).
Defined.


(** ** Sending, case by case *)

(** X11.  [send_reply] hands to the service at most one message, and
    only the one that [_create_reply_message] composed from the address
    of the profile, the recipient, the normalized subject, the body and
    the threading data it was given; nothing is handed over when the
    service is missing, when the profile cannot be read or has no
    address, or when the serialiser raises. *)
Theorem send_reply_sends_what_it_composed
        (as_bytes : MIMEMultipart -> result bytes) (self : GmailAgent)
        (to subject reply_body thread_id original_message_id references : str)
        (t : trace) :
  exists ds,
    sends (snd (send_reply as_bytes self to subject reply_body thread_id
                           original_message_id references t))
    = sends t ++ ds
    /\ (ds = []
        \/ exists svc profile actual_sender d,
          service self = Some svc
          /\ getProfile svc t = Ok profile
          /\ emailAddress profile = Some actual_sender
          /\ actual_sender <> []
          /\ _create_reply_message as_bytes actual_sender to
               (reply_subject_of subject) reply_body thread_id
               original_message_id references = Ok d
          /\ ds = [d]).
Proof.
  rewrite send_reply_run. cbv zeta.
  destruct (service self) as [svc|] eqn:Hs;
    [|exists []; rewrite app_nil_r; auto].
  destruct (getProfile svc t) as [profile|e] eqn:Hp.
  - destruct (emailAddress profile) as [[|c actual_sender]|] eqn:Ha.
    + exists []. cbn [snd]. rewrite sends_app. auto.
    + destruct (_create_reply_message _ _ _ _ _ _ _ _) as [d|e] eqn:Hc.
      * exists [d]. split.
        -- destruct (messages_send svc _ d) as [message|e].
           ++ cbn [snd]. rewrite !sends_app. simpl. rewrite !app_nil_r.
              reflexivity.
           ++ rewrite api_handlers_sends, !sends_app. simpl.
              rewrite !app_nil_r. reflexivity.
        -- right. exists svc, profile, (c :: actual_sender), d.
           repeat split; try assumption. discriminate.
      * exists []. rewrite api_handlers_sends, sends_app. auto.
    + exists []. cbn [snd]. rewrite sends_app. auto.
  - exists []. rewrite api_handlers_sends, sends_app. auto.
Qed.

(** X12.  With the service set up, [send_reply] returns a success with
    the id [message_id] exactly when the profile gave a non-empty
    address, the reply was composed, and the service answered the send
    with a message of that id.  A profile without an address, or with an
    empty one, gives the error envelope of the missing sender after the
    profile call alone: nothing is sent and nothing is logged. *)
Theorem send_reply_status
        (as_bytes : MIMEMultipart -> result bytes) (self : GmailAgent)
        (svc : Service)
        (to subject reply_body thread_id original_message_id references : str)
        (t : trace) :
  service self = Some svc ->
  (forall message_id,
      fst (send_reply as_bytes self to subject reply_body thread_id
                      original_message_id references t)
      = Ok (Success message_id)
      <-> exists profile actual_sender d sent,
        getProfile svc t = Ok profile
        /\ emailAddress profile = Some actual_sender
        /\ actual_sender <> []
        /\ _create_reply_message as_bytes actual_sender to
             (reply_subject_of subject) reply_body thread_id
             original_message_id references = Ok d
        /\ messages_send svc (t ++ [getProfile_call]) d = Ok sent
        /\ message_id = sent_id sent)
  /\ (forall profile,
         getProfile svc t = Ok profile ->
         emailAddress profile = None \/ emailAddress profile = Some [] ->
         send_reply as_bytes self to subject reply_body thread_id
                    original_message_id references t
         = (Ok (Error (py "Could not determine sender email address from profile.")),
            t ++ [getProfile_call])).
Proof.
  intros Hs. rewrite send_reply_run. cbv zeta. rewrite Hs. split.
  - intros message_id. split.
    + destruct (getProfile svc t) as [profile|e] eqn:Hp;
        [|rewrite api_handlers_run; destruct e; discriminate].
      destruct (emailAddress profile) as [[|c actual_sender]|] eqn:Ha;
        [discriminate| |discriminate].
      destruct (_create_reply_message _ _ _ _ _ _ _ _) as [d|e] eqn:Hc;
        [|rewrite api_handlers_run; destruct e; discriminate].
      destruct (messages_send svc _ d) as [sent|e] eqn:Hsend;
        [|rewrite api_handlers_run; destruct e; discriminate].
      intros [= <-]. exists profile, (c :: actual_sender), d, sent.
      repeat split; try assumption. discriminate.
    + intros (profile & actual_sender & d & sent & -> & -> & Hne & Hc & Hsend & ->).
      destruct actual_sender as [|c r]; [congruence|].
      rewrite Hc, Hsend. reflexivity.
  - intros profile -> [-> | ->]; reflexivity.
Qed.

Lemma send_reply_status_witness :
  send_reply example_as_bytes empty_agent (py "ada@example.org") (py "Report")
             (py "Thank you.") (py "t1") (py "<m1>") [] []
  = (Ok (Error (py "Could not determine sender email address from profile.")),
     [] ++ [getProfile_call]).
Proof.
  exact (proj2 (send_reply_status example_as_bytes empty_agent empty_service
                  (py "ada@example.org") (py "Report") (py "Thank you.")
                  (py "t1") (py "<m1>") [] [] eq_refl)
               {| emailAddress := None |} eq_refl (or_introl eq_refl)).
Defined.

(** ** Back ends that are not set up, and exceptions *)

(** X13.  A tool whose back end is not set up returns at once: the four
    tools of the mailbox give the error envelope of the missing service,
    and the two tools of the model that of the missing model, without a
    call and without a record in the log.  [summarize_email_with_gemini]
    looks at the service first, and fetches nothing when only the model
    is missing. *)
Theorem tools_fail_fast_without_back_end
        (as_bytes : MIMEMultipart -> result bytes) (self : GmailAgent)
        (t : trace) :
  (service self = None ->
   (forall max_results,
       list_recent_emails self max_results t
       = (Ok (Error (py "Gmail service not available.")), t))
   /\ (forall query max_results,
          search_emails self query max_results t
          = (Ok (Error (py "Gmail service not available.")), t))
   /\ (forall email_id,
          summarize_email_with_gemini self email_id t
          = (Ok (Error (py "Gmail service not available.")), t))
   /\ (forall to subject reply_body thread_id original_message_id references,
          send_reply as_bytes self to subject reply_body thread_id
                     original_message_id references t
          = (Ok (Error (py "Gmail service not available.")), t)))
  /\ (gemini_model self = None ->
      (forall original_subject original_body,
          generate_reply_with_gemini self original_subject original_body t
          = (Ok (Error (py "Gemini model not initialized.")), t))
      /\ (forall email_id,
             service self <> None ->
             summarize_email_with_gemini self email_id t
             = (Ok (Error (py "Gemini model not initialized.")), t))).
Proof.
  split.
  - intros Hs.
    unfold list_recent_emails, search_emails, summarize_email_with_gemini,
      send_reply.
    rewrite Hs. repeat split.
  - intros Hm.
    unfold generate_reply_with_gemini, summarize_email_with_gemini.
    rewrite Hm. split; [reflexivity|].
    intros email_id Hs. destruct (service self); [reflexivity|congruence].
Qed.

Lemma tools_fail_fast_without_back_end_witness :
  summarize_email_with_gemini
    {| service := Some example_service; gemini_model := None |} (py "m7") []
  = (Ok (Error (py "Gemini model not initialized.")), []).
Proof.
  refine (proj2 (proj2 (tools_fail_fast_without_back_end
                          example_as_bytes
                          {| service := Some example_service;
                             gemini_model := None |} [])
                       eq_refl)
                (py "m7") _).
  discriminate.
Defined.


(** ** Multipart bodies *)

Lemma plain_loop_skips_one (pre rest : list MessagePart) (a : MessagePart) :
  carries_plain_text a = false ->
  plain_loop (pre ++ a :: rest) = plain_loop (pre ++ rest).
Proof.
  intros Ha. induction pre as [|q pre IH]; simpl.
  - unfold carries_plain_text in Ha.
    destruct (mimeType_is a (py "text/plain")); [|reflexivity].
    destruct (part_data a) as [d|]; [|reflexivity].
    simpl in Ha. rewrite Ha. reflexivity.
  - rewrite IH. reflexivity.
Qed.

Lemma matches_nothing_no_plain_text (a : MessagePart) :
  matches_nothing a = true -> carries_plain_text a = false.
Proof.
  unfold matches_nothing, carries_plain_text. intros H.
  apply andb_true_iff in H as [H _]. apply andb_true_iff in H as [H _].
  apply negb_true_iff in H. rewrite H. reflexivity.
Qed.

Lemma html_loop_skips_one (f : MessagePart -> result str)
      (pre rest : list MessagePart) (a : MessagePart) :
  matches_nothing a = true ->
  forall body,
    html_loop f (pre ++ a :: rest) body = html_loop f (pre ++ rest) body.
Proof.
  intros Ha. induction pre as [|q pre IH]; intros body.
  - simpl. unfold matches_nothing in Ha.
    apply andb_true_iff in Ha as [Ha Hp]. apply andb_true_iff in Ha as [_ Hh].
    destruct (parts a); [discriminate|].
    apply negb_true_iff in Hh. rewrite Hh. reflexivity.
  - simpl. destruct (parts q).
    + destruct (f q) as [nested|e]; [|reflexivity].
      destruct (truthy nested); [reflexivity|apply IH].
    + destruct (mimeType_is q (py "text/html")); [|apply IH].
      destruct (part_data q) as [d|]; [|apply IH].
      destruct (truthy d); [|apply IH].
      destruct (truthy body); simpl; [apply IH|].
      destruct (decode_data d); [apply IH|reflexivity].
Qed.

(** X15.  A part that is neither text/plain, nor text/html, nor
    multipart (an attachment, an image) has no effect on the body:
    [_get_email_body] gives the same result with the part and without
    it, wherever it stands among the parts. *)
Theorem get_email_body_ignores_other_parts
        (mt : option str) (hs : option (list Header))
        (b : option MessagePartBody) (pre rest : list MessagePart)
        (a : MessagePart) :
  matches_nothing a = true ->
  _get_email_body (mkMessagePart mt hs b (Some (pre ++ a :: rest)))
  = _get_email_body (mkMessagePart mt hs b (Some (pre ++ rest))).
Proof.
  intros Ha.
  rewrite (get_email_body_parts (mkMessagePart mt hs b (Some (pre ++ a :: rest)))
             (pre ++ a :: rest) eq_refl).
  rewrite (get_email_body_parts (mkMessagePart mt hs b (Some (pre ++ rest)))
             (pre ++ rest) eq_refl).
  rewrite (plain_loop_skips_one pre rest a (matches_nothing_no_plain_text a Ha)).
  rewrite (html_loop_skips_one _ pre rest a Ha). reflexivity.
Qed.

Lemma get_email_body_ignores_other_parts_witness :
  _get_email_body
    (mkMessagePart (Some (py "multipart/mixed")) None None
       (Some ([html_part_hi]
              ++ {| mimeType := Some (py "application/pdf"); headers := None;
                    body := Some {| data := Some (py "abc") |};
                    parts := None |} :: [html_part_hi])))
  = _get_email_body
      (mkMessagePart (Some (py "multipart/mixed")) None None
         (Some ([html_part_hi] ++ [html_part_hi]))).
Proof.
  apply (get_email_body_ignores_other_parts
           (Some (py "multipart/mixed")) None None [html_part_hi] [html_part_hi]).
  reflexivity.
Defined.

(** X16.  A multipart payload whose only part is itself multipart has
    the body of that part: wrapping a multipart message in another
    multipart changes nothing, and neither do the type, the headers and
    the body of the wrapper. *)
Theorem get_email_body_of_wrapped_multipart
        (mt : option str) (hs : option (list Header))
        (b : option MessagePartBody) (p : MessagePart) (l : list MessagePart) :
  parts p = Some l ->
  carries_plain_text p = false ->
  _get_email_body (mkMessagePart mt hs b (Some [p])) = _get_email_body p.
Proof.
  intros Hp Hc.
  rewrite (get_email_body_parts (mkMessagePart mt hs b (Some [p])) [p] eq_refl).
  rewrite (plain_loop_none [p]) by (simpl; rewrite Hc; reflexivity).
  simpl. rewrite Hp.
  destruct (_get_email_body p) as [[|c r]|e]; reflexivity.
Qed.

Lemma get_email_body_of_wrapped_multipart_witness :
  _get_email_body
    (mkMessagePart (Some (py "multipart/mixed")) None None
       (Some [alternative_of [plain_part_without_data; html_part_hi]]))
  = _get_email_body (alternative_of [plain_part_without_data; html_part_hi]).
Proof.
  exact (get_email_body_of_wrapped_multipart
           (Some (py "multipart/mixed")) None None
           (alternative_of [plain_part_without_data; html_part_hi])
           [plain_part_without_data; html_part_hi] eq_refl eq_refl).
Defined.

Lemma html_loop_over_leaves (f : MessagePart -> result str)
      (pre tail : list MessagePart) :
  Forall (fun q => parts q = None /\ exists s, part_text q = Ok s) pre ->
  forall body, exists body',
    html_loop f (pre ++ tail) body = html_loop f tail body'.
Proof.
  induction 1 as [|q pre (Hq & s & Hs) Hpre IH]; intros body; simpl.
  - exists body. reflexivity.
  - rewrite Hq. unfold part_text in Hs.
    destruct (mimeType_is q (py "text/html")); [|apply IH].
    destruct (part_data q) as [d|]; [|apply IH].
    destruct (truthy d); [|apply IH].
    destruct (truthy body); simpl; [apply IH|].
    rewrite Hs. apply IH.
Qed.

(** X17.  The text found in a nested multipart wins over an HTML
    fallback captured before it: when no part of the payload is a
    text/plain part with data, the parts before the first multipart part
    are leaves whose data decodes, and that multipart part has a
    non-empty body, the body of the payload is the body of that part. *)
Theorem get_email_body_nested_text_wins
        (p : MessagePart) (pre rest : list MessagePart) (part : MessagePart)
        (nested_body : str) :
  parts p = Some (pre ++ part :: rest) ->
  existsb carries_plain_text (pre ++ part :: rest) = false ->
  Forall (fun q => parts q = None /\ exists s, part_text q = Ok s) pre ->
  parts part <> None ->
  _get_email_body part = Ok nested_body ->
  nested_body <> [] ->
  _get_email_body p = Ok nested_body.
Proof.
  intros Hp Hc Hpre Hparts Hbody Hne.
  rewrite (get_email_body_parts p _ Hp).
  rewrite (plain_loop_none _ Hc).
  destruct (html_loop_over_leaves _get_email_body pre (part :: rest) Hpre [])
    as (body' & ->).
  simpl. destruct (parts part); [|congruence].
  rewrite Hbody. destruct nested_body; [congruence|reflexivity].
Qed.

Lemma get_email_body_nested_text_wins_witness :
  _get_email_body
    (mkMessagePart (Some (py "multipart/mixed")) None None
       (Some ([html_part_hi] ++ alternative_of [plain_part_hi] :: [])))
  = Ok (py "hi").
Proof.
  refine (get_email_body_nested_text_wins
            (mkMessagePart (Some (py "multipart/mixed")) None None
               (Some ([html_part_hi] ++ alternative_of [plain_part_hi] :: [])))
            [html_part_hi] [] (alternative_of [plain_part_hi]) (py "hi")
            eq_refl eq_refl _ _ eq_refl _).
  - repeat constructor. exists (py "<b>hi</b>"). reflexivity.
  - discriminate.
  - discriminate.
Defined.


(** ** Header fields and addresses *)

(** X18.  Taking the address of the sender again changes nothing; and
    whenever the address differs from the header, it holds no ['>'] and
    is shorter than the header by at least the two brackets. *)
Theorem sender_email_of_idempotent (h : str) :
  sender_email_of (sender_email_of h) = sender_email_of h
  /\ (sender_email_of h <> h ->
      contains 62%N (sender_email_of h) = false
      /\ List.length (sender_email_of h) + 2 <= List.length h).
Proof.
  destruct (list_eq_dec N.eq_dec (sender_email_of h) h) as [E|NE].
  - split; [rewrite E; exact E|]. intros H. elim H. exact E.
  - destruct (sender_email_of_changed h NE) as (pre & mid & post & Hb & Hmid).
    rewrite (sender_email_of_bracketed h pre mid post Hb Hmid).
    destruct Hb as (-> & _ & _ & H62).
    split.
    + unfold sender_email_of. rewrite H62, andb_false_r. reflexivity.
    + intros _. split; [assumption|].
      rewrite !length_app. simpl. lia.
Qed.

Lemma sender_email_of_idempotent_witness :
  contains 62%N (sender_email_of (py "Ada <ada@example.org>")) = false
  /\ List.length (sender_email_of (py "Ada <ada@example.org>")) + 2
     <= List.length (py "Ada <ada@example.org>").
Proof.
  apply (proj2 (sender_email_of_idempotent (py "Ada <ada@example.org>"))).
  discriminate.
Defined.

(** X19.  The value of a header field is that of the first header whose
    name, lower-cased, is the key, and the default when there is none;
    the entry of a message that has no payload carries the three
    defaults. *)
Theorem header_value_first_match_or_default (hs : list Header) (key default : str) :
  (forall pre h rest,
      hs = pre ++ h :: rest ->
      (forall q, In q pre -> lower (name q) <> key) ->
      lower (name h) = key ->
      header_value hs key default = value h)
  /\ ((forall q, In q hs -> lower (name q) <> key) ->
      header_value hs key default = default)
  /\ (forall msg_id th,
         email_of msg_id {| threadId := th; payload := None |}
         = {| email_id := msg_id; email_threadId := th;
              email_subject := py "No Subject";
              email_from := py "Unknown Sender";
              email_date := py "No Date" |}).
Proof.
  assert (Hskip : forall pre tail,
             (forall q, In q pre -> lower (name q) <> key) ->
             List.find (fun h => str_eqb (lower (name h)) key) (pre ++ tail)
             = List.find (fun h => str_eqb (lower (name h)) key) tail).
  { induction pre as [|q pre IH]; intros tail H; [reflexivity|].
    simpl. destruct (str_eqb (lower (name q)) key) eqn:E.
    - apply str_eqb_eq in E. elim (H q (or_introl eq_refl)). exact E.
    - apply IH. intros q' Hq'. apply H. right. assumption. }
  split; [|split].
  - intros pre h rest -> Hpre Hh. unfold header_value.
    rewrite (Hskip pre (h :: rest) Hpre). simpl.
    rewrite Hh, str_eqb_refl. reflexivity.
  - intros H. unfold header_value.
    rewrite <- (app_nil_r hs). rewrite (Hskip hs [] H). reflexivity.
  - reflexivity.
Qed.

Lemma header_value_first_match_or_default_witness :
  header_value
    ([ {| name := py "Date"; value := py "Mon, 3 Mar 2025" |} ]
     ++ {| name := py "SUBJECT"; value := py "Report" |}
     :: [ {| name := py "Subject"; value := py "Other" |} ])
    (py "subject") (py "No Subject") = py "Report"
  /\ header_value [ {| name := py "Date"; value := py "Mon, 3 Mar 2025" |} ]
       (py "subject") (py "No Subject") = py "No Subject".
Proof.
  split.
  - refine (proj1 (header_value_first_match_or_default _ (py "subject")
                     (py "No Subject"))
                  [ {| name := py "Date"; value := py "Mon, 3 Mar 2025" |} ]
                  {| name := py "SUBJECT"; value := py "Report" |}
                  [ {| name := py "Subject"; value := py "Other" |} ]
                  eq_refl _ eq_refl).
    intros q [<-|[]]. discriminate.
  - apply (proj1 (proj2 (header_value_first_match_or_default
                           [ {| name := py "Date"; value := py "Mon, 3 Mar 2025" |} ]
                           (py "subject") (py "No Subject")))).
    intros q [<-|[]]. discriminate.
Defined.

Lemma lstrip_app_blank (r x : str) :
  blank r = true -> lstrip (r ++ x) = lstrip x.
Proof.
  unfold blank. induction r as [|c r IH]; simpl; [reflexivity|].
  intros H. apply andb_true_iff in H as [Hc Hr]. rewrite Hc. auto.
Qed.

Lemma lstrip_app_not_blank (r x : str) :
  blank r = false -> lstrip (r ++ x) = lstrip r ++ x.
Proof.
  unfold blank. induction r as [|c r IH]; simpl; [discriminate|].
  destruct (isspace c); simpl; [assumption|reflexivity].
Qed.

Lemma last_app_nonempty {A} (a b : list A) (d : A) :
  b <> [] -> last (a ++ b) d = last b d.
Proof.
  intros Hb. destruct (exists_last Hb) as (b' & c & ->).
  rewrite app_assoc, !last_last. reflexivity.
Qed.

Lemma rstrip_app_trimmed (a id : str) :
  id <> [] -> trimmed id = true -> rstrip (a ++ id) = a ++ id.
Proof.
  intros Hne Ht. destruct id as [|c r]; [congruence|].
  unfold trimmed in Ht. apply andb_true_iff in Ht as [_ Hl].
  apply negb_true_iff in Hl.
  apply (rstrip_fixed (a ++ c :: r) c).
  - destruct a; discriminate.
  - rewrite last_app_nonempty by discriminate. assumption.
Qed.

(** X20.  When the original message id is not empty and has no white
    space at its ends, the References value of the reply ends with it:
    it is the message id alone when the original references are empty or
    blank, and otherwise the original references without their leading
    white space, a space, and the message id. *)
Theorem new_references_end_with_message_id (references original_message_id : str) :
  original_message_id <> [] ->
  trimmed original_message_id = true ->
  new_references_of references original_message_id
  = if blank references then original_message_id
    else lstrip references ++ py " " ++ original_message_id.
Proof.
  intros Hne Ht. unfold new_references_of.
  destruct references as [|c r]; [reflexivity|]. cbn [truthy].
  unfold strip.
  destruct (blank (c :: r)) eqn:B.
  - rewrite (lstrip_app_blank (c :: r) _ B).
    change (py " " ++ original_message_id) with (32%N :: original_message_id).
    change (lstrip (32%N :: original_message_id))
      with (lstrip original_message_id).
    destruct original_message_id as [|x id]; [congruence|].
    pose proof Ht as Ht'. unfold trimmed in Ht'.
    apply andb_true_iff in Ht' as [Hx _]. apply negb_true_iff in Hx.
    rewrite (lstrip_fixed x id Hx).
    apply (rstrip_app_trimmed [] (x :: id)); assumption.
  - rewrite (lstrip_app_not_blank (c :: r) _ B).
    rewrite app_assoc. rewrite rstrip_app_trimmed by assumption.
    rewrite <- app_assoc. reflexivity.
Qed.

Lemma new_references_end_with_message_id_witness :
  new_references_of (py "  <a> <b> ") (py "<m1>")
  = if blank (py "  <a> <b> ") then py "<m1>"
    else lstrip (py "  <a> <b> ") ++ py " " ++ py "<m1>".
Proof.
  apply new_references_end_with_message_id; [discriminate|reflexivity].
Defined.


(** ** Calls of the summary *)

(** X21.  With both back ends set up, [summarize_email_with_gemini]
    asks the service for the message exactly once, in the full format,
    and hands nothing to [messages().send]. *)
Theorem summarize_fetches_once_and_never_sends
        (self : GmailAgent) (svc : Service) (model : GenerativeModel)
        (email_id : str) (t : trace) :
  service self = Some svc ->
  gemini_model self = Some model ->
  fetch_calls (snd (summarize_email_with_gemini self email_id t))
  = fetch_calls t ++ [(email_id, Full)]
  /\ sends (snd (summarize_email_with_gemini self email_id t)) = sends t.
Proof.
  intros Hs Hm. rewrite (summarize_run self svc model email_id t Hs Hm).
  cbv zeta.
  destruct (messages_get svc t email_id Full) as [message|e].
  - destruct (_get_email_body (payload_of message)) as [[|c b]|e].
    + cbn [snd]. rewrite !fetch_calls_app, !sends_app. simpl.
      rewrite !app_nil_r. auto.
    + destruct (generate_content model _ _); cbn [snd];
        rewrite !fetch_calls_app, !sends_app; simpl; rewrite !app_nil_r; auto.
    + rewrite api_handlers_run.
      destruct e; cbn [snd]; rewrite !fetch_calls_app, !sends_app; simpl;
        rewrite !app_nil_r; auto.
  - rewrite api_handlers_run.
    destruct e; cbn [snd]; rewrite !fetch_calls_app, !sends_app; simpl;
      rewrite !app_nil_r; auto.
Qed.

Lemma summarize_fetches_once_and_never_sends_witness :
  fetch_calls (snd (summarize_email_with_gemini example_agent (py "m7") []))
  = fetch_calls [] ++ [(py "m7", Full)]
  /\ sends (snd (summarize_email_with_gemini example_agent (py "m7") []))
     = sends [].
Proof.
  exact (summarize_fetches_once_and_never_sends
           example_agent example_service example_model (py "m7") []
           eq_refl eq_refl).
Defined.


(** ** Log of the fetches *)

Lemma skip_warnings_length (what : str) (stubs : list MessageStub)
      (outcomes : list (result Message)) :
  List.length outcomes = List.length stubs ->
  List.length (skip_warnings what stubs outcomes) = failures outcomes.
Proof.
  revert outcomes; induction stubs as [|s stubs IH]; intros [|r outcomes];
    simpl; try discriminate; [reflexivity|].
  intros [= H]. specialize (IH outcomes H).
  unfold skip_warnings, failures in *. simpl.
  destruct r; simpl; rewrite ?length_app; simpl; lia.
Qed.

(** X23.  When the listing answers with ids, what [list_recent_emails]
    and [search_emails] add to the log is one warning for each fetch
    that failed, in the order of the ids, with the id of the message and
    the text of the exception, and nothing else. *)
Theorem listing_logs_one_warning_per_failure (self : GmailAgent) (svc : Service) :
  service self = Some svc ->
  (forall max_results t stub rest,
      messages_list svc t (Some [py "INBOX"]) None max_results
      = Ok {| messages := Some (stub :: rest) |} ->
      exists outcomes t',
        fetches svc (py "message ")
                (t ++ [messages_list_call (Some [py "INBOX"]) None max_results])
                (stub :: rest) outcomes t'
        /\ log_records (snd (list_recent_emails self max_results t))
           = log_records t ++ skip_warnings (py "message ") (stub :: rest) outcomes
        /\ List.length (skip_warnings (py "message ") (stub :: rest) outcomes)
           = failures outcomes)
  /\ (forall query max_results t stub rest,
         messages_list svc t None (Some query) max_results
         = Ok {| messages := Some (stub :: rest) |} ->
         exists outcomes t',
           fetches svc (py "searched message ")
                   (t ++ [messages_list_call None (Some query) max_results])
                   (stub :: rest) outcomes t'
           /\ log_records (snd (search_emails self query max_results t))
              = log_records t
                ++ skip_warnings (py "searched message ") (stub :: rest) outcomes
           /\ List.length
                (skip_warnings (py "searched message ") (stub :: rest) outcomes)
              = failures outcomes).
Proof.
  intros Hs. split.
  - intros max_results t stub rest Hl.
    pose proof (list_recent_emails_run self svc max_results t Hs) as R.
    cbv zeta in R. rewrite Hl in R. cbn [messages] in R.
    destruct R as (outcomes & t' & Hf & ->).
    exists outcomes, t'. split; [assumption|]. cbn [snd].
    destruct (fetches_calls_and_log _ _ _ _ _ _ Hf) as (_ & L & _ & _).
    rewrite L, log_records_app. simpl. rewrite app_nil_r.
    split; [reflexivity|].
    apply skip_warnings_length. apply (fetches_length _ _ _ _ _ _ Hf).
  - intros query max_results t stub rest Hl.
    pose proof (search_emails_run self svc query max_results t Hs) as R.
    cbv zeta in R. rewrite Hl in R. cbn [messages] in R.
    destruct R as (outcomes & t' & Hf & ->).
    exists outcomes, t'. split; [assumption|]. cbn [snd].
    destruct (fetches_calls_and_log _ _ _ _ _ _ Hf) as (_ & L & _ & _).
    rewrite L, log_records_app. simpl. rewrite app_nil_r.
    split; [reflexivity|].
    apply skip_warnings_length. apply (fetches_length _ _ _ _ _ _ Hf).
Qed.

Lemma listing_logs_one_warning_per_failure_witness :
  exists outcomes t',
    fetches example_service (py "message ")
            ([] ++ [messages_list_call (Some [py "INBOX"]) None 10])
            ({| stub_id := py "m" ++ str_of_N 0 |} :: tl ten_stubs) outcomes t'
    /\ log_records (snd (list_recent_emails example_agent 10 []))
       = log_records []
         ++ skip_warnings (py "message ")
              ({| stub_id := py "m" ++ str_of_N 0 |} :: tl ten_stubs) outcomes
    /\ List.length
         (skip_warnings (py "message ")
            ({| stub_id := py "m" ++ str_of_N 0 |} :: tl ten_stubs) outcomes)
       = failures outcomes.
Proof.
  exact (proj1 (listing_logs_one_warning_per_failure
                  example_agent example_service eq_refl)
               10%Z [] {| stub_id := py "m" ++ str_of_N 0 |} (tl ten_stubs)
               eq_refl).
Defined.

(* ================================================================= *)
(** * The body of a message under the recursion limit *)

Section within_the_limit.
Variable decode_within : nat -> str -> result str.
Variable decoder_room : nat.
Hypothesis decode_within_room :
  forall room d, decoder_room <= room -> decode_within room d = decode_data d.






End within_the_limit.





